(** * Tool-dispatch relay, tool handlers and profile validation

    A shallow embedding of [agents/3_openai_tool_calling.py] and of the
    validation part of [agents/2_pydantic_ai_validation.py].

    Python values are dynamically typed, so the handlers are embedded over
    one type of values ([pyvalue]) and raise the exceptions the interpreter
    raises on a value of the wrong type.  What the scripts do not own (the
    remote completion service, [json.loads], [json.dumps], [eval], [repr],
    the case mappings of the Unicode database, pydantic's lax integer
    coercion) is a field of the environment classes [Interpreter],
    [CompletionService], [StructuredService] and [Pydantic]; every theorem
    holds for all environments. *)

From Stdlib Require Import Ascii String Floats.PrimFloat.
From stdpp Require Import base numbers strings pretty list gmap.

Set Warnings "-inexact-float,-register-all".
Set Default Proof Using "Type".

Local Open Scope Z_scope.
Local Open Scope string_scope.

(** ** Python values and exceptions *)

(** The values [json.loads] produces and the handlers return.  A [dict] is
    an association list in insertion order (the order [json.dumps] prints);
    its keys are strings, as in every dict of the scripts. *)
Inductive pyvalue : Type :=
| PyNone
| PyBool (b : bool)
| PyInt (z : Z)
| PyFloat (f : float)
| PyStr (s : string)
| PyList (l : list pyvalue)
| PyDict (items : list (string * pyvalue)).

(** [type(v).__name__] *)
Definition type_name (v : pyvalue) : string :=
  match v with
  | PyNone => "NoneType"
  | PyBool _ => "bool"
  | PyInt _ => "int"
  | PyFloat _ => "float"
  | PyStr _ => "str"
  | PyList _ => "list"
  | PyDict _ => "dict"
  end.

(** An instance of a subclass of [Exception]: its class and [str(e)]. *)
Inductive exn : Type :=
| Exc (cls : string) (msg : string).

Definition exc_class (e : exn) : string := let 'Exc c _ := e in c.
Definition exc_str (e : exn) : string := let 'Exc _ m := e in m.

Definition TypeError := Exc "TypeError".
Definition AttributeError := Exc "AttributeError".
Definition IndexError := Exc "IndexError".

(** The result of evaluating an expression or a call: a value, or an
    exception on its way up. *)
Inductive outcome (A : Type) : Type :=
| Return (a : A)
| Raise (e : exn).
Arguments Return {A} a.
Arguments Raise {A} e.

Definition obind {A B} (c : outcome A) (k : A -> outcome B) : outcome B :=
  match c with
  | Return a => k a
  | Raise e => Raise e
  end.

(** [try: body  except Exception as e: handler(e)] *)
Definition try_except {A} (body : outcome A) (handler : exn -> outcome A)
  : outcome A :=
  match body with
  | Return a => Return a
  | Raise e => handler e
  end.

Definition raises {A} (c : outcome A) : Prop := exists e, c = Raise e.
Definition returns {A} (c : outcome A) : Prop := exists a, c = Return a.

Declare Scope py_scope.
Delimit Scope py_scope with py.
Notation "x <- c ;; k" := (obind c (fun x => k))
  (at level 100, c at next level, right associativity) : py_scope.

(** ** Built-in string methods

    A [str] is a sequence of code points.  It is held in its UTF-8 form:
    one 8-bit character for a code point below U+0080, and a lead character
    followed by continuation characters (0x80 to 0xBF) for any other.
    Equality and concatenation of strs are those of their UTF-8 forms; the
    length, the slices, the iteration and the white space go by code
    point. *)

Definition is_continuation (c : ascii) : bool :=
  let n := nat_of_ascii c in ((128 <=? n) && (n <? 192))%nat.

(** The string starts inside a code point. *)
Definition continues (s : string) : bool :=
  match s with
  | String c _ => is_continuation c
  | EmptyString => false
  end.

(** [list(s)]: the code points of a str, each a str of length one.  A
    continuation character belongs to the code point of the lead before
    it. *)
Fixpoint str_chars (s : string) : list string :=
  match s with
  | EmptyString => []
  | String c rest =>
      match str_chars rest with
      | ch :: chs =>
          if continues ch then String c ch :: chs
          else String c EmptyString :: ch :: chs
      | [] => [String c EmptyString]
      end
  end.

(** The str made of the given code points, in order. *)
Fixpoint str_join (chars : list string) : string :=
  match chars with
  | [] => EmptyString
  | ch :: rest => ch ++ str_join rest
  end.

(** [len(s)] *)
Definition str_len (s : string) : nat := length (str_chars s).

(** [s[:n]] *)
Definition str_take (n : nat) (s : string) : string :=
  str_join (take n (str_chars s)).

(** The UTF-8 form of a code point. *)
Definition byte (n : N) : ascii := ascii_of_N n.

Definition utf8 (cp : N) : string :=
  if (cp <? 128)%N then String (byte cp) EmptyString
  else if (cp <? 2048)%N then
    String (byte (192 + cp / 64))
      (String (byte (128 + cp mod 64)) EmptyString)
  else if (cp <? 65536)%N then
    String (byte (224 + cp / 4096))
      (String (byte (128 + (cp / 64) mod 64))
         (String (byte (128 + cp mod 64)) EmptyString))
  else
    String (byte (240 + cp / 262144))
      (String (byte (128 + (cp / 4096) mod 64))
         (String (byte (128 + (cp / 64) mod 64))
            (String (byte (128 + cp mod 64)) EmptyString))).

(** The code points [str.strip] removes, those with [c.isspace()]: tab to
    carriage return, the separators U+001C to U+001F, the space, U+0085,
    U+00A0, U+1680, U+2000 to U+200A, U+2028, U+2029, U+202F, U+205F and
    U+3000. *)
Definition whitespace : list string :=
  utf8 <$> [9; 10; 11; 12; 13; 28; 29; 30; 31; 32; 133; 160; 5760;
            8192; 8193; 8194; 8195; 8196; 8197; 8198; 8199; 8200; 8201;
            8202; 8232; 8233; 8239; 8287; 12288]%N.

(** [c.isspace()] on a str of length one. *)
Definition char_isspace (c : string) : bool := bool_decide (c ∈ whitespace).

(** [s.lstrip()] and [s.rstrip()] on the list of the code points. *)
Fixpoint lstrip_chars (l : list string) : list string :=
  match l with
  | [] => []
  | c :: rest => if char_isspace c then lstrip_chars rest else l
  end.

Definition rstrip_chars (l : list string) : list string :=
  rev (lstrip_chars (rev l)).

(** [s.strip()] *)
Definition str_strip (s : string) : string :=
  str_join (rstrip_chars (lstrip_chars (str_chars s))).

(** [s.isascii()] *)
Fixpoint str_isascii (s : string) : bool :=
  match s with
  | EmptyString => true
  | String c rest => (nat_of_ascii c <? 128)%nat && str_isascii rest
  end.

(** The case mappings of the ASCII letters; every other character below
    U+0080 is its own lower and upper case. *)
Definition ascii_lower (c : ascii) : ascii :=
  let n := nat_of_ascii c in
  if ((65 <=? n) && (n <=? 90))%nat then ascii_of_nat (n + 32) else c.

Definition ascii_upper (c : ascii) : ascii :=
  let n := nat_of_ascii c in
  if ((97 <=? n) && (n <=? 122))%nat then ascii_of_nat (n - 32) else c.

Fixpoint str_map (f : ascii -> ascii) (s : string) : string :=
  match s with
  | EmptyString => EmptyString
  | String c rest => String (f c) (str_map f rest)
  end.

(** [d.get(key)] on the association list of a dict. *)
Fixpoint dict_get (items : list (string * pyvalue)) (key : string)
  : option pyvalue :=
  match items with
  | [] => None
  | (k, v) :: rest => if decide (k = key) then Some v else dict_get rest key
  end.

(** ** Calling a function with keyword arguments *)

(** The built-ins whose code is not part of the scripts.  The case
    mappings are those of the interpreter's Unicode database; what is
    fixed of them here is their ASCII part: a str of ASCII characters only
    is mapped letter by letter, A to Z and a to z onto each other and any
    other character onto itself. *)
Class Interpreter : Type := {
  (** [eval(expression)] on a string *)
  py_eval : string -> outcome pyvalue;
  (** [repr(v)], which is also [str(v)] when [v] is not a string *)
  py_repr : pyvalue -> string;
  (** [json.loads(text)] *)
  json_loads : string -> outcome pyvalue;
  (** [json.dumps(v)] *)
  json_dumps : pyvalue -> outcome string;
  (** [s.lower()] and [s.upper()] *)
  str_lower : string -> string;
  str_upper : string -> string;
  str_lower_ascii s :
    str_isascii s = true -> str_lower s = str_map ascii_lower s;
  str_upper_ascii s :
    str_isascii s = true -> str_upper s = str_map ascii_upper s
}.

(** [KeyError(key)]: its [str] is the [repr] of the key. *)
Definition KeyError `{Interpreter} (key : string) : exn :=
  Exc "KeyError" (py_repr (PyStr key)).

(** A function defined with [def]: its name, its parameters in order, each
    with its default when it has one, and its body over the bound values. *)
Record pyfunction : Type := Def {
  fn_name : string;
  fn_params : list (string * option pyvalue);
  fn_body : list pyvalue -> outcome pyvalue
}.

(** The first key of the dict that names no parameter. *)
Fixpoint unexpected_keyword (params : list (string * option pyvalue))
    (items : list (string * pyvalue)) : option string :=
  match items with
  | [] => None
  | (k, _) :: rest =>
      if bool_decide (k ∈ params.*1) then unexpected_keyword params rest
      else Some k
  end.

(** The parameters without a default that the dict does not bind. *)
Fixpoint missing_arguments (params : list (string * option pyvalue))
    (items : list (string * pyvalue)) : list string :=
  match params with
  | [] => []
  | (p, None) :: rest =>
      match dict_get items p with
      | Some _ => missing_arguments rest items
      | None => p :: missing_arguments rest items
      end
  | (_, Some _) :: rest => missing_arguments rest items
  end.

(** The value of every parameter: the one the dict binds, else the
    default. *)
Definition bound_arguments (params : list (string * option pyvalue))
    (items : list (string * pyvalue)) : list pyvalue :=
  map (fun p => default (default PyNone p.2) (dict_get items p.1)) params.

Definition quoted (s : string) : string := "'" ++ s ++ "'".

Definition dquoted (s : string) : string :=
  String (ascii_of_nat 34) (s ++ String (ascii_of_nat 34) EmptyString).

Fixpoint comma_names (names : list string) : string :=
  match names with
  | [] => ""
  | [a] => "and " ++ quoted a
  | a :: rest => quoted a ++ ", " ++ comma_names rest
  end.

Definition missing_message (fname : string) (names : list string) : string :=
  match names with
  | [a] => fname ++ "() missing 1 required positional argument: " ++ quoted a
  | [a; b] =>
      fname ++ "() missing 2 required positional arguments: "
            ++ quoted a ++ " and " ++ quoted b
  | _ =>
      fname ++ "() missing " ++ pretty (length names)
            ++ " required positional arguments: " ++ comma_names names
  end.

(** A call that unpacks [function_args] as keyword arguments: the
    unpacked operand must be a mapping, every key must name a parameter,
    and every parameter without a default must be bound; each failure is
    a [TypeError] raised before the body runs.  The script runs as the
    module [__main__], which the first of the messages names. *)
Definition bind_kwargs (f : pyfunction) (function_args : pyvalue)
  : outcome (list pyvalue) :=
  match function_args with
  | PyDict items =>
      match unexpected_keyword (fn_params f) items with
      | Some k =>
          Raise (TypeError (fn_name f
                   ++ "() got an unexpected keyword argument " ++ quoted k))
      | None =>
          match missing_arguments (fn_params f) items with
          | [] => Return (bound_arguments (fn_params f) items)
          | names => Raise (TypeError (missing_message (fn_name f) names))
          end
      end
  | other =>
      Raise (TypeError ("__main__." ++ fn_name f
               ++ "() argument after ** must be a mapping, not "
               ++ type_name other))
  end.

Definition call_kwargs (f : pyfunction) (function_args : pyvalue)
  : outcome pyvalue :=
  (args <- bind_kwargs f function_args ;; fn_body f args)%py.

(** The body of a function of one, two or three parameters. *)
Definition arity_error : exn := TypeError "wrong number of bound arguments".

Definition body1 (g : pyvalue -> outcome pyvalue) (args : list pyvalue)
  : outcome pyvalue :=
  match args with [a] => g a | _ => Raise arity_error end.

Definition body2 (g : pyvalue -> pyvalue -> outcome pyvalue)
    (args : list pyvalue) : outcome pyvalue :=
  match args with [a; b] => g a b | _ => Raise arity_error end.

Definition body3 (g : pyvalue -> pyvalue -> pyvalue -> outcome pyvalue)
    (args : list pyvalue) : outcome pyvalue :=
  match args with [a; b; c] => g a b c | _ => Raise arity_error end.

(** ** Tool implementations *)

Section Handlers.
Context `{Interpreter}.

(** [v.lower()] and [v.upper()]: only a string has the method. *)
Definition no_attribute (v : pyvalue) (attr : string) : exn :=
  AttributeError (quoted (type_name v) ++ " object has no attribute "
                    ++ quoted attr).

Definition method_lower (v : pyvalue) : outcome string :=
  match v with
  | PyStr s => Return (str_lower s)
  | other => Raise (no_attribute other "lower")
  end.

Definition method_upper (v : pyvalue) : outcome string :=
  match v with
  | PyStr s => Return (str_upper s)
  | other => Raise (no_attribute other "upper")
  end.

(** Looking a value up as a key hashes it: a list or a dict cannot be
    hashed, and a value that is not a string equals no string key. *)
Definition unhashable (v : pyvalue) : exn :=
  TypeError ("unhashable type: " ++ quoted (type_name v)).

Definition get_or {V} (d : gmap string V) (key : pyvalue) (dflt : V)
  : outcome V :=
  match key with
  | PyStr k => Return (default dflt (d !! k))
  | PyList _ | PyDict _ => Raise (unhashable key)
  | _ => Return dflt
  end.

Record weather_row : Type := WeatherRow {
  temp : Z;
  condition : string;
  humidity : Z
}.

Definition weather_data : gmap string weather_row :=
  list_to_map [
    ("london", WeatherRow 15 "Cloudy" 65);
    ("new york", WeatherRow 22 "Sunny" 45);
    ("tokyo", WeatherRow 18 "Rainy" 80);
    ("paris", WeatherRow 17 "Partly Cloudy" 55);
    ("sydney", WeatherRow 25 "Sunny" 50)
  ].

Definition weather_default : weather_row := WeatherRow 20 "Unknown" 50.

Definition get_weather (location unit : pyvalue) : outcome pyvalue :=
  (location_lower <- method_lower location ;;
   let data := default weather_default (weather_data !! location_lower) in
   Return (PyDict [
     ("location", location);
     ("temperature", PyInt (temp data));
     ("unit", unit);
     ("condition", PyStr (condition data));
     ("humidity", PyInt (humidity data))
   ]))%py.

(** [allowed_chars = set("0123456789+-*/(). ")] *)
Definition allowed_chars : list string :=
  str_chars "0123456789+-*/(). ".

(** [iter(v)]: the characters of a string, the items of a list, the keys
    of a dict. *)
Definition py_iter (v : pyvalue) : outcome (list pyvalue) :=
  match v with
  | PyStr s => Return (PyStr <$> str_chars s)
  | PyList l => Return l
  | PyDict items => Return (map (fun kv => PyStr kv.1) items)
  | other =>
      Raise (TypeError (quoted (type_name other) ++ " object is not iterable"))
  end.

(** [c in allowed_chars] *)
Definition in_allowed_chars (c : pyvalue) : outcome bool :=
  match c with
  | PyStr s => Return (bool_decide (s ∈ allowed_chars))
  | PyList _ | PyDict _ => Raise (unhashable c)
  | _ => Return false
  end.

(** [all(c in allowed_chars for c in cs)], which stops at the first
    character that is not allowed. *)
Fixpoint all_allowed (cs : list pyvalue) : outcome bool :=
  match cs with
  | [] => Return true
  | c :: rest =>
      (b <- in_allowed_chars c ;;
       if b then all_allowed rest else Return false)%py
  end.

(** [eval(v)] *)
Definition builtin_eval (v : pyvalue) : outcome pyvalue :=
  match v with
  | PyStr s => py_eval s
  | _ => Raise (TypeError "eval() arg 1 must be a string, bytes or code object")
  end.

Definition invalid_characters : pyvalue :=
  PyDict [("error", PyStr "Invalid characters in expression")].

Definition calculate (expression : pyvalue) : outcome pyvalue :=
  try_except
    (cs <- py_iter expression ;;
     ok <- all_allowed cs ;;
     if negb ok then Return invalid_characters
     else
       result <- builtin_eval expression ;;
       Return (PyDict [("expression", expression); ("result", result)]))%py
    (fun e => Return (PyDict [("error", PyStr (exc_str e))])).

Record stock_row : Type := StockRow {
  price : pyvalue;
  change : pyvalue;
  change_percent : pyvalue
}.

Definition stock_data : gmap string stock_row :=
  list_to_map [
    ("AAPL", StockRow (PyFloat 178.50) (PyFloat 2.30) (PyFloat 1.31));
    ("GOOGL", StockRow (PyFloat 142.80) (PyFloat (-1.20)) (PyFloat (-0.83)));
    ("MSFT", StockRow (PyFloat 415.30) (PyFloat 5.40) (PyFloat 1.32));
    ("TSLA", StockRow (PyFloat 242.80) (PyFloat 8.60) (PyFloat 3.67));
    ("AMZN", StockRow (PyFloat 178.25) (PyFloat (-0.50)) (PyFloat (-0.28)))
  ].

Definition stock_default : stock_row := StockRow (PyInt 0) (PyInt 0) (PyInt 0).

Definition get_stock_price (symbol : pyvalue) : outcome pyvalue :=
  (symbol_upper <- method_upper symbol ;;
   let data := default stock_default (stock_data !! symbol_upper) in
   Return (PyDict [
     ("symbol", PyStr symbol_upper);
     ("price", price data);
     ("change", change data);
     ("change_percent", change_percent data)
   ]))%py.

(** A value inside an f-string: a string as it is, another value through
    [str]. *)
Definition format_value (v : pyvalue) : string :=
  match v with
  | PyStr s => s
  | other => py_repr other
  end.

(** [len(v)] *)
Definition py_len (v : pyvalue) : outcome nat :=
  match v with
  | PyStr s => Return (str_len s)
  | PyList l => Return (length l)
  | PyDict items => Return (length items)
  | other =>
      Raise (TypeError ("object of type " ++ quoted (type_name other)
                          ++ " has no len()"))
  end.

(** [body[:50] + "..."]: a list cannot be joined with a string, and a
    slice is no key of a dict (up to Python 3.11 it cannot be hashed). *)
Definition truncated (body : pyvalue) : outcome pyvalue :=
  match body with
  | PyStr s => Return (PyStr (str_take 50 s ++ "..."))
  | PyList _ =>
      Raise (TypeError ("can only concatenate list (not " ++ dquoted "str"
                          ++ ") to list"))
  | PyDict _ => Raise (TypeError "unhashable type: 'slice'")
  | other =>
      Raise (TypeError (quoted (type_name other)
                          ++ " object is not subscriptable"))
  end.

Definition send_email (to subject body : pyvalue) : outcome pyvalue :=
  (n <- py_len body ;;
   body_preview <- (if (50 <? n)%nat then truncated body else Return body) ;;
   Return (PyDict [
     ("status", PyStr "success");
     ("message", PyStr ("Email sent to " ++ format_value to));
     ("to", to);
     ("subject", subject);
     ("body_preview", body_preview)
   ]))%py.

Definition row3 (k1 : string) (v1 : pyvalue) (k2 : string) (v2 : pyvalue)
    (k3 : string) (v3 : pyvalue) : pyvalue :=
  PyDict [(k1, v1); (k2, v2); (k3, v3)].

Definition results : gmap string (list pyvalue) :=
  list_to_map [
    ("users", [
       row3 "id" (PyInt 1) "name" (PyStr "Alice Johnson")
            "email" (PyStr "alice@example.com");
       row3 "id" (PyInt 2) "name" (PyStr "Bob Smith")
            "email" (PyStr "bob@example.com");
       row3 "id" (PyInt 3) "name" (PyStr "Charlie Brown")
            "email" (PyStr "charlie@example.com")
     ]);
    ("products", [
       row3 "id" (PyInt 101) "name" (PyStr "Laptop") "price" (PyInt 999);
       row3 "id" (PyInt 102) "name" (PyStr "Mouse") "price" (PyInt 29);
       row3 "id" (PyInt 103) "name" (PyStr "Keyboard") "price" (PyInt 79)
     ]);
    ("orders", [
       row3 "id" (PyInt 501) "customer" (PyStr "Alice") "total" (PyInt 1107);
       row3 "id" (PyInt 502) "customer" (PyStr "Bob") "total" (PyInt 79)
     ])
  ].

Definition search_database (query table : pyvalue) : outcome pyvalue :=
  (table_data <- get_or results table [] ;;
   Return (PyDict [
     ("table", table);
     ("query", query);
     ("results", PyList table_data);
     ("count", PyInt (Z.of_nat (length table_data)))
   ]))%py.

(** ** The handler mapping *)

Definition def_get_weather : pyfunction :=
  Def "get_weather" [("location", None); ("unit", Some (PyStr "celsius"))]
      (body2 get_weather).

Definition def_calculate : pyfunction :=
  Def "calculate" [("expression", None)] (body1 calculate).

Definition def_get_stock_price : pyfunction :=
  Def "get_stock_price" [("symbol", None)] (body1 get_stock_price).

Definition def_send_email : pyfunction :=
  Def "send_email" [("to", None); ("subject", None); ("body", None)]
      (body3 send_email).

Definition def_search_database : pyfunction :=
  Def "search_database" [("query", None); ("table", Some (PyStr "users"))]
      (body2 search_database).

Definition available_functions : gmap string pyfunction :=
  list_to_map [
    ("get_weather", def_get_weather);
    ("calculate", def_calculate);
    ("get_stock_price", def_get_stock_price);
    ("send_email", def_send_email);
    ("search_database", def_search_database)
  ].

End Handlers.

(** ** Tool definitions sent to the completion service *)

Definition string_property (description : string) : pyvalue :=
  PyDict [("type", PyStr "string"); ("description", PyStr description)].

Definition enum_property (values : list string) (description : string)
  : pyvalue :=
  PyDict [("type", PyStr "string");
          ("enum", PyList (PyStr <$> values));
          ("description", PyStr description)].

Definition function_tool (name description : string)
    (properties : list (string * pyvalue)) (required : list string)
  : pyvalue :=
  PyDict [
    ("type", PyStr "function");
    ("function", PyDict [
       ("name", PyStr name);
       ("description", PyStr description);
       ("parameters", PyDict [
          ("type", PyStr "object");
          ("properties", PyDict properties);
          ("required", PyList (PyStr <$> required));
          ("additionalProperties", PyBool false)
        ])
     ])
  ].

Definition tools : pyvalue :=
  PyList [
    function_tool "get_weather"
      "Get the current weather for a specific location"
      [("location",
        string_property "The city name, e.g., London, New York");
       ("unit",
        enum_property ["celsius"; "fahrenheit"] "The temperature unit")]
      ["location"];
    function_tool "calculate"
      "Perform a mathematical calculation"
      [("expression",
        string_property
          "The mathematical expression to evaluate, e.g., '2 + 2' or '10 * 5'")]
      ["expression"];
    function_tool "get_stock_price"
      "Get the current stock price for a company symbol"
      [("symbol",
        string_property "The stock ticker symbol, e.g., AAPL, GOOGL, MSFT")]
      ["symbol"];
    function_tool "send_email"
      "Send an email to a recipient"
      [("to", string_property "The recipient's email address");
       ("subject", string_property "The email subject line");
       ("body", string_property "The email body content")]
      ["to"; "subject"; "body"];
    function_tool "search_database"
      "Search a database table for records"
      [("query", string_property "The search query");
       ("table",
        enum_property ["users"; "products"; "orders"]
          "The database table to search")]
      ["query"]
  ].

(** ** Conversation, requests and the remote service *)

(** A tool call of an assistant message: [tool_call.id],
    [tool_call.function.name], [tool_call.function.arguments]. *)
Record tool_call : Type := ToolCall {
  call_id : string;
  call_name : string;
  call_arguments : string
}.

(** The message of a completion: [message.content] and
    [message.tool_calls], either of which may be [None]. *)
Record chat_message : Type := ChatMessage {
  content : option string;
  tool_calls : option (list tool_call)
}.

(** A completion: the messages of [response.choices]. *)
Record completion : Type := Completion {
  choices : list chat_message
}.

(** An element of the [messages] list: a role and content dict, the
    assistant message object of the first completion, or a tool result. *)
Inductive message : Type :=
| RoleContent (role : string) (text : string)
| AssistantMessage (m : chat_message)
| ToolResult (tool_call_id : string) (name : string) (text : string).

Definition role_of (m : message) : string :=
  match m with
  | RoleContent role _ => role
  | AssistantMessage _ => "assistant"
  | ToolResult _ _ _ => "tool"
  end.

(** The keyword arguments of [client.chat.completions.create]. *)
Record request : Type := Request {
  req_model : string;
  req_messages : list message;
  req_tools : option pyvalue;
  req_tool_choice : option string
}.

(** What a script does to the outside: a completion request, the call of a
    handler with the deserialized arguments, or a line on the terminal. *)
Inductive event : Type :=
| Requested (r : request)
| Invoked (function_name : string) (function_args : pyvalue)
| Printed (text : string).

(** The remote service answers a request given everything that happened
    before it; an error of the service or of the network is an exception. *)
Class CompletionService : Type := {
  chat_completions_create : list event -> request -> outcome completion
}.

Definition requests_of (t : list event) : list request :=
  omap (fun e => match e with Requested r => Some r | _ => None end) t.

Definition invocations_of (t : list event) : list (string * pyvalue) :=
  omap (fun e => match e with Invoked n a => Some (n, a) | _ => None end) t.

(** The state a query runs in: the [messages] list and the events so far,
    oldest first. *)
Record conversation : Type := Conversation {
  messages : list message;
  trace : list event
}.

(** A statement of the relay: it ends with a value or an exception, and
    with the state it has reached either way. *)
Definition relay (A : Type) : Type := conversation -> outcome A * conversation.

Definition ret {A} (a : A) : relay A := fun st => (Return a, st).

Definition bind {A B} (c : relay A) (k : A -> relay B) : relay B :=
  fun st =>
    match c st with
    | (Return a, st') => k a st'
    | (Raise e, st') => (Raise e, st')
    end.

Definition lift {A} (c : outcome A) : relay A := fun st => (c, st).

Declare Scope relay_scope.
Delimit Scope relay_scope with relay.
Notation "x <- c ;; k" := (bind c (fun x => k))
  (at level 100, c at next level, right associativity) : relay_scope.
Notation "c ;; k" := (bind c (fun _ => k))
  (at level 100, right associativity) : relay_scope.

(** [for x in l: body(x)] *)
Fixpoint for_each {A} (body : A -> relay unit) (l : list A) : relay unit :=
  match l with
  | [] => ret tt
  | x :: rest => (body x ;; for_each body rest)%relay
  end.

(** [messages.append(m)] *)
Definition messages_append (m : message) : relay unit :=
  fun st => (Return tt, Conversation (messages st ++ [m]) (trace st)).

(** [response.choices[0].message] *)
Definition first_choice (response : completion) : outcome chat_message :=
  match choices response with
  | m :: _ => Return m
  | [] => Raise (IndexError "list index out of range")
  end.

(** The truth value of [tool_calls]: [None] and the empty list are false. *)
Definition truthy (calls : option (list tool_call)) : bool :=
  match calls with
  | Some (_ :: _) => true
  | _ => false
  end.

Definition calls_of (calls : option (list tool_call)) : list tool_call :=
  default [] calls.

Definition system_prompt : string :=
  "You are a helpful assistant with access to various tools. Use them to answer user queries accurately.".

Section Relay.
Context `{Interpreter} `{CompletionService}.

(** [client.chat.completions.create(model="gpt-4o", messages=messages, ...)] *)
Definition create (tools : option pyvalue) (tool_choice : option string)
  : relay completion :=
  fun st =>
    let r := Request "gpt-4o" (messages st) tools tool_choice in
    (chat_completions_create (trace st) r,
     Conversation (messages st) (trace st ++ [Requested r])).

(** [available_functions[function_name]] *)
Definition lookup_function (function_name : string) : outcome pyfunction :=
  match available_functions !! function_name with
  | Some f => Return f
  | None => Raise (KeyError function_name)
  end.

(** The call of the handler with the unpacked arguments. *)
Definition invoke (function_name : string) (function_to_call : pyfunction)
    (function_args : pyvalue) : relay pyvalue :=
  fun st =>
    (call_kwargs function_to_call function_args,
     Conversation (messages st)
                  (trace st ++ [Invoked function_name function_args])).

(** The body of the loop over [tool_calls]. *)
Definition execute_tool_call (tc : tool_call) : relay unit :=
  (let function_name := call_name tc in
   function_args <- lift (json_loads (call_arguments tc)) ;;
   function_to_call <- lift (lookup_function function_name) ;;
   function_response <- invoke function_name function_to_call function_args ;;
   text <- lift (json_dumps function_response) ;;
   messages_append (ToolResult (call_id tc) function_name text))%relay.

(** The statements of [run_conversation] after [messages] is built. *)
Definition converse : relay (option string) :=
  (response <- create (Some tools) (Some "auto") ;;
   response_message <- lift (first_choice response) ;;
   if truthy (tool_calls response_message) then
     messages_append (AssistantMessage response_message) ;;
     for_each execute_tool_call (calls_of (tool_calls response_message)) ;;
     second_response <- create None None ;;
     second_message <- lift (first_choice second_response) ;;
     ret (content second_message)
   else
     ret (content response_message))%relay.

Definition initial_messages (user_query : string) : list message :=
  [RoleContent "system" system_prompt; RoleContent "user" user_query].

(** [run_conversation(user_query, verbose=False)], started after the
    events [history]: the final answer or the exception, and the state at
    the end.  With [verbose=True] the function prints in between and does
    the same otherwise. *)
Definition run_conversation (user_query : string) (history : list event)
  : outcome (option string) * conversation :=
  converse (Conversation (initial_messages user_query) history).

End Relay.

(** ** The validated person profile *)

Record PersonProfile : Type := MkPersonProfile {
  name : string;
  age : Z;
  occupation : string
}.

(** The kinds of error a field can have, named as pydantic names them. *)
Inductive error_type : Type :=
| missing
| model_type
| string_type
| int_type
| greater_than_equal (bound : Z)
| less_than_equal (bound : Z)
| value_error (msg : string).

(** What pydantic itself decides: the integer a value that is not an
    [int] is read as in lax mode, if any, and the text of a
    [ValidationError]. *)
Class Pydantic : Type := {
  lax_int : pyvalue -> option Z;
  validation_error_str : list (string * error_type) -> string
}.

Definition ValidationError `{Pydantic} (errors : list (string * error_type))
  : exn :=
  Exc "ValidationError" (validation_error_str errors).

Section Validation.
Context `{Pydantic}.

(** A field of type [str] *)
Definition validate_str (v : pyvalue) : error_type + string :=
  match v with
  | PyStr s => inr s
  | _ => inl string_type
  end.

(** A field of type [int] *)
Definition validate_int (v : pyvalue) : error_type + Z :=
  match v with
  | PyInt z => inr z
  | other =>
      match lax_int other with
      | Some z => inr z
      | None => inl int_type
      end
  end.

(** [Field(ge=0, le=150)] *)
Definition within_bounds (z : Z) : error_type + Z :=
  if (z <? 0)%Z then inl (greater_than_equal 0)
  else if (150 <? z)%Z then inl (less_than_equal 150)
  else inr z.

(** The validator of [name]: the name must not be empty or white space
    only, and is stored stripped. *)
Definition name_must_not_be_empty (v : string) : outcome string :=
  if decide (str_strip v = "") then
    Raise (Exc "ValueError" "Name cannot be empty")
  else Return (str_strip v).

Definition validate_name (v : pyvalue) : error_type + string :=
  match validate_str v with
  | inr s =>
      match name_must_not_be_empty s with
      | Return s' => inr s'
      | Raise e => inl (value_error (exc_str e))
      end
  | inl err => inl err
  end.

Definition validate_age (v : pyvalue) : error_type + Z :=
  match validate_int v with
  | inr z => within_bounds z
  | inl err => inl err
  end.

(** A field of the input dict: every field of the model is required. *)
Definition validate_field {A} (items : list (string * pyvalue))
    (field : string) (validator : pyvalue -> error_type + A)
  : error_type + A :=
  match dict_get items field with
  | Some v => validator v
  | None => inl missing
  end.

Definition error_of {A} (field : string) (r : error_type + A)
  : list (string * error_type) :=
  match r with
  | inl err => [(field, err)]
  | inr _ => []
  end.

(** The fields are validated in the order of their declaration and every
    error is collected. *)
Definition validate_fields (obj : pyvalue)
  : list (string * error_type) + PersonProfile :=
  match obj with
  | PyDict items =>
      let n := validate_field items "name" validate_name in
      let a := validate_field items "age" validate_age in
      let o := validate_field items "occupation" validate_str in
      match n, a, o with
      | inr n', inr a', inr o' => inr (MkPersonProfile n' a' o')
      | _, _, _ =>
          inl (error_of "name" n ++ error_of "age" a
                 ++ error_of "occupation" o)%list
      end
  | _ => inl [("", model_type)]
  end.

(** [PersonProfile.model_validate(obj)] *)
Definition model_validate (obj : pyvalue) : outcome PersonProfile :=
  match validate_fields obj with
  | inr profile => Return profile
  | inl errors => Raise (ValidationError errors)
  end.

(** [print(text)] *)
Definition print (text : string) : relay unit :=
  fun st => (Return tt, Conversation (messages st) (trace st ++ [Printed text])).

(** [try: body  except Exception as e: handler(e)] for statements. *)
Definition try_relay {A} (body : relay A) (handler : exn -> relay A)
  : relay A :=
  fun st =>
    match body st with
    | (Return a, st') => (Return a, st')
    | (Raise e, st') => handler e st'
    end.

Fixpoint str_repeat (s : string) (n : nat) : string :=
  match n with
  | O => ""
  | S n' => s ++ str_repeat s n'
  end.

Definition newline : string := String (ascii_of_nat 10) EmptyString.

Definition invalid_data : pyvalue :=
  PyDict [
    ("name", PyStr "   ");
    ("age", PyInt 200);
    ("occupation", PyStr "Developer")
  ].

Definition example_with_validation_error : relay unit :=
  (print "Example 3: Validation Error Handling" ;;
   print (str_repeat "=" 50) ;;
   try_relay
     (lift (model_validate invalid_data) ;; ret tt)
     (fun e =>
        print (newline ++ "Validation errors caught by Pydantic:") ;;
        print ("Error: " ++ exc_str e) ;;
        print (newline ++ "Pydantic ensures data integrity before processing!")) ;;
   print (newline ++ str_repeat "=" 50 ++ newline))%relay.

End Validation.

(** * Notions used in the statements *)

Local Open Scope list_scope.

Section RelayNotions.
Context `{Interpreter} `{CompletionService}.

(** The request a query starts with. *)
Definition first_request (user_query : string) : request :=
  Request "gpt-4o" (initial_messages user_query) (Some tools) (Some "auto").

(** What one tool call contributes when nothing raises: its result
    message.  What raises first decides the exception. *)
Definition tool_result (tc : tool_call) : outcome message :=
  (function_args <- json_loads (call_arguments tc) ;;
   function_to_call <- lookup_function (call_name tc) ;;
   function_response <- call_kwargs function_to_call function_args ;;
   text <- json_dumps function_response ;;
   Return (ToolResult (call_id tc) (call_name tc) text))%py.

(** The handler call one tool call makes, once its arguments are read and
    its handler is found. *)
Definition invocation_of (tc : tool_call) : list event :=
  match json_loads (call_arguments tc) with
  | Return function_args =>
      match lookup_function (call_name tc) with
      | Return _ => [Invoked (call_name tc) function_args]
      | Raise _ => []
      end
  | Raise _ => []
  end.

(** The exception of the first tool call that raises, if any. *)
Fixpoint failure_of (tcs : list tool_call) : option exn :=
  match tcs with
  | [] => None
  | tc :: rest =>
      match tool_result tc with
      | Return _ => failure_of rest
      | Raise e => Some e
      end
  end.

(** The results of the tool calls before the first one that raises. *)
Fixpoint results_of (tcs : list tool_call) : list message :=
  match tcs with
  | [] => []
  | tc :: rest =>
      match tool_result tc with
      | Return m => m :: results_of rest
      | Raise _ => []
      end
  end.

(** The handler calls made up to the first tool call that raises. *)
Fixpoint invocations_until_failure (tcs : list tool_call) : list event :=
  match tcs with
  | [] => []
  | tc :: rest =>
      match tool_result tc with
      | Return _ => invocation_of tc ++ invocations_until_failure rest
      | Raise _ => invocation_of tc
      end
  end.

Definition outcome_of (failure : option exn) : outcome unit :=
  match failure with
  | None => Return tt
  | Some e => Raise e
  end.

(** A result message answers a tool call: it carries its identifier and
    its function name. *)
Definition answers (tc : tool_call) (m : message) : Prop :=
  exists text, m = ToolResult (call_id tc) (call_name tc) text.

(** The events and requests a run adds to the history it started from. *)
Definition new_events (user_query : string) (history : list event)
  : list event :=
  drop (length history) (trace (run_conversation user_query history).2).

Definition requests_issued (user_query : string) (history : list event)
  : list request :=
  requests_of (new_events user_query history).

Definition handlers_invoked (user_query : string) (history : list event)
  : list (string * pyvalue) :=
  invocations_of (new_events user_query history).

(** The second request of a run whose tool calls were all served. *)
Definition second_request (user_query : string) (rm : chat_message)
    (tcs : list tool_call) : request :=
  Request "gpt-4o"
    (initial_messages user_query ++ AssistantMessage rm :: results_of tcs)
    None None.

End RelayNotions.

(** A statement only adds events: the trace it starts from is a prefix of
    the trace it ends with. *)
Definition logs_only {A} (c : relay A) : Prop :=
  forall st, trace st `prefix_of` trace (c st).2.

(** A statement only appends to [messages] when the list it starts from is
    a prefix of the list it ends with, whether it returns or raises. *)
Definition appends_only {A} (c : relay A) : Prop :=
  forall st, messages st `prefix_of` messages (c st).2.

(** A field of the dict a handler returned. *)
Definition field (key : string) (r : outcome pyvalue) : option pyvalue :=
  match r with
  | Return (PyDict items) => dict_get items key
  | _ => None
  end.

(** The lines [example_with_validation_error] prints. *)
Definition example_output `{Pydantic} : list event :=
  [ Printed "Example 3: Validation Error Handling";
    Printed (str_repeat "=" 50);
    Printed (newline ++ "Validation errors caught by Pydantic:")%string;
    Printed ("Error: " ++ validation_error_str
               [("name", value_error "Name cannot be empty");
                ("age", less_than_equal 150)])%string;
    Printed (newline
               ++ "Pydantic ensures data integrity before processing!")%string;
    Printed (newline ++ str_repeat "=" 50 ++ newline)%string ].

(** * More of the scripts *)

(** ** The structured-output request of the validation script *)

(** The keyword arguments of [client.chat.completions.create] when a
    response format is asked for. *)
Record structured_request : Type := StructuredRequest {
  sr_model : string;
  sr_messages : list message;
  sr_response_format : pyvalue
}.

(** The remote service on such a request, given the requests before it. *)
Class StructuredService : Type := {
  structured_create :
    list structured_request -> structured_request -> outcome completion
}.

(** What the function uses of a model class: [__name__], the dict of
    [model_json_schema()], and [model_validate]. *)
Record model_class (A : Type) : Type := ModelClass {
  cls_name : string;
  cls_json_schema : list (string * pyvalue);
  cls_validate : pyvalue -> outcome A
}.
Arguments cls_name {A} _.
Arguments cls_json_schema {A} _.
Arguments cls_validate {A} _.

(** [d[key] = v]: the entry of the key is replaced where it is, and a new
    key goes to the end. *)
Fixpoint dict_set (items : list (string * pyvalue)) (key : string)
    (v : pyvalue) : list (string * pyvalue) :=
  match items with
  | [] => [(key, v)]
  | (k, x) :: rest =>
      if decide (k = key) then (k, v) :: rest
      else (k, x) :: dict_set rest key v
  end.

Section Structured.
Context `{Interpreter} `{StructuredService}.

(** [json.loads(message.content)]: the content may be [None]. *)
Definition loads_content (text : option string) : outcome pyvalue :=
  match text with
  | Some t => json_loads t
  | None =>
      Raise (TypeError
               "the JSON object must be str, bytes or bytearray, not NoneType")
  end.

Definition response_format_of {A} (mc : model_class A) : pyvalue :=
  let schema :=
    dict_set (cls_json_schema mc) "additionalProperties" (PyBool false) in
  PyDict [
    ("type", PyStr "json_schema");
    ("json_schema", PyDict [
       ("name", PyStr (cls_name mc));
       ("strict", PyBool true);
       ("schema", PyDict schema)
     ])
  ].

(** [get_structured_output_with_pydantic(model_class, prompt,
    system_message)], started after the requests [log]: the validated
    instance or the exception, and the requests at the end. *)
Definition get_structured_output_with_pydantic {A} (mc : model_class A)
    (prompt system_message : string) (log : list structured_request)
  : outcome A * list structured_request :=
  let response_format := response_format_of mc in
  let r :=
    StructuredRequest "gpt-4o-2024-08-06"
      [RoleContent "system" system_message; RoleContent "user" prompt]
      response_format in
  ((completion <- structured_create log r ;;
    response_message <- first_choice completion ;;
    json_response <- loads_content (content response_message) ;;
    cls_validate mc json_response)%py,
   log ++ [r]).

End Structured.

(** The class [PersonProfile], with the schema pydantic derives for it. *)
Definition PersonProfile_class `{Pydantic} (schema : list (string * pyvalue))
  : model_class PersonProfile :=
  ModelClass PersonProfile "PersonProfile" schema model_validate.

(** * Notions used in the further statements *)

(** The schema of a response format. *)
Definition schema_of (response_format : pyvalue) : list (string * pyvalue) :=
  match response_format with
  | PyDict items =>
      match dict_get items "json_schema" with
      | Some (PyDict inner) =>
          match dict_get inner "schema" with
          | Some (PyDict schema) => schema
          | _ => []
          end
      | _ => []
      end
  | _ => []
  end.

(** The dict of a validated profile, field by field. *)
Definition profile_dict (p : PersonProfile) : pyvalue :=
  PyDict [("name"%string, PyStr (name p));
          ("age"%string, PyInt (age p));
          ("occupation"%string, PyStr (occupation p))].

(** A str of one code point: a character and the continuation characters
    after it; all but the first of a str start with a lead. *)
Fixpoint continuations (t : string) : bool :=
  match t with
  | EmptyString => true
  | String c rest => is_continuation c && continuations rest
  end.

Definition is_char (ch : string) : Prop :=
  exists c t, ch = String c t /\ continuations t = true.

Definition is_lead_char (ch : string) : Prop :=
  is_char ch /\ continues ch = false.

Definition chars_wf (chars : list string) : Prop :=
  match chars with
  | [] => True
  | ch :: rest => is_char ch /\ Forall is_lead_char rest
  end.

(** The parameters of a function that have no default. *)
Definition required_params (f : pyfunction) : list string :=
  omap (fun p => match p.2 with None => Some p.1 | Some _ => None end)
       (fn_params f).

(** The tool descriptors of the catalog, and what one declares: the name
    of its function, the names of its properties and the required ones. *)
Definition advertised_tools : list pyvalue :=
  match tools with PyList l => l | _ => [] end.

Definition subscript (v : pyvalue) (key : string) : pyvalue :=
  match v with
  | PyDict items => default PyNone (dict_get items key)
  | _ => PyNone
  end.

Definition tool_parameters (t : pyvalue) : pyvalue :=
  subscript (subscript t "function") "parameters".

Definition tool_name (t : pyvalue) : string :=
  match subscript (subscript t "function") "name" with
  | PyStr s => s
  | _ => ""
  end.

Definition tool_properties (t : pyvalue) : list string :=
  match subscript (tool_parameters t) "properties" with
  | PyDict items => items.*1
  | _ => []
  end.

Definition tool_required (t : pyvalue) : list string :=
  match subscript (tool_parameters t) "required" with
  | PyList l => omap (fun v => match v with PyStr s => Some s | _ => None end) l
  | _ => []
  end.

(** Arguments conform to a descriptor when they are a dict whose keys are
    declared properties and that has every required property. *)
Definition conforms (t : pyvalue) (v : pyvalue) : Prop :=
  exists items,
    v = PyDict items
    /\ (forall k, k ∈ items.*1 -> k ∈ tool_properties t)
    /\ (forall r, r ∈ tool_required t -> is_Some (dict_get items r)).

Section DispatchNotions.
Context `{Interpreter}.

(** A handler call is that of a tool call: its name, and the arguments
    read from its payload. *)
Definition call_of (tc : tool_call) (call : string * pyvalue) : Prop :=
  call.1 = call_name tc
  /\ json_loads (call_arguments tc) = Return call.2
  /\ is_Some (available_functions !! call.1).

End DispatchNotions.

(** * A scripted environment

    An interpreter and a remote service that answer as the real ones do on
    the inputs of the runs below, used to evaluate the relay on them.  The
    strings of the runs are ASCII, and the case mappings of the scripted
    interpreter are those of the ASCII letters. *)

Local Open Scope string_scope.

(** [json.dumps] on values without floats, with the default separators;
    the strings of the runs need no escape. *)
Fixpoint sample_dumps (v : pyvalue) : string :=
  match v with
  | PyNone => "null"
  | PyBool true => "true"
  | PyBool false => "false"
  | PyInt z => pretty z
  | PyFloat _ => "NaN"
  | PyStr s => dquoted s
  | PyList l => "[" ++ String.concat ", " (map sample_dumps l) ++ "]"
  | PyDict items =>
      "{" ++ String.concat ", "
               (map (fun kv => dquoted (fst kv) ++ ": " ++ sample_dumps (snd kv))
                    items)
          ++ "}"
  end.

Fixpoint float_free (v : pyvalue) : bool :=
  match v with
  | PyFloat _ => false
  | PyList l => forallb float_free l
  | PyDict items => forallb (fun kv => float_free (snd kv)) items
  | _ => true
  end.

(** The argument payloads the scripted service sends. *)
Definition tokyo_args : pyvalue := PyDict [("location", PyStr "Tokyo")].
Definition london_args : pyvalue := PyDict [("location", PyStr "London")].
Definition division_args : pyvalue := PyDict [("expression", PyStr "1/0")].
Definition product_args : pyvalue := PyDict [("expression", PyStr "157 * 23")].
Definition number_args : pyvalue := PyDict [("location", PyInt 5)].
Definition text_args : pyvalue := PyDict [("text", PyStr "hello")].

Definition known_payloads : list pyvalue :=
  [tokyo_args; london_args; division_args; product_args; number_args;
   text_args].

(** The one payload of the runs that is not JSON, and what [json.loads]
    says of it. *)
Definition broken_payload : string := "{not json".

Definition json_decode_error : exn :=
  Exc "JSONDecodeError"
    "Expecting property name enclosed in double quotes: line 1 column 2 (char 1)".

Definition sample_loads (text : string) : outcome pyvalue :=
  match list_find (fun v => sample_dumps v = text) known_payloads with
  | Some (_, v) => Return v
  | None => Raise json_decode_error
  end.

Definition sample_eval (expression : string) : outcome pyvalue :=
  if decide (expression = "1/0") then
    Raise (Exc "ZeroDivisionError" "division by zero")
  else if decide (expression = "157 * 23") then Return (PyInt 3611)
  else if decide (expression = "2 + 2") then Return (PyInt 4)
  else Raise (Exc "SyntaxError" "invalid syntax (<string>, line 1)").

(** [repr] on the values of the runs, whose strings need no escape. *)
Definition sample_repr (v : pyvalue) : string :=
  match v with
  | PyNone => "None"
  | PyBool true => "True"
  | PyBool false => "False"
  | PyInt z => pretty z
  | PyStr s => quoted s
  | other => sample_dumps other
  end.

Definition sample_interpreter : Interpreter := {|
  py_eval := sample_eval;
  py_repr := sample_repr;
  json_loads := sample_loads;
  json_dumps v :=
    if float_free v then Return (sample_dumps v)
    else Raise (Exc "NotImplementedError" "a float in the scripted serializer");
  str_lower := str_map ascii_lower;
  str_upper := str_map ascii_upper;
  str_lower_ascii _ _ := eq_refl;
  str_upper_ascii _ _ := eq_refl
|}.

(** The text of the user message of a request. *)
Definition user_text (r : request) : string :=
  match req_messages r with
  | _ :: RoleContent _ text :: _ => text
  | _ => ""
  end.

Definition asks (calls : list tool_call) : outcome completion :=
  Return (Completion [ChatMessage None (Some calls)]).

Definition says (text : string) : outcome completion :=
  Return (Completion [ChatMessage (Some text) None]).

Definition weather_query : string := "What's the weather like in Tokyo?".
Definition two_tools_query : string :=
  "What is 157 multiplied by 23 and what's the weather in London?".
Definition division_query : string := "What is 1 divided by 0?".
Definition greeting_query : string := "Hello".
Definition translate_query : string := "Translate hello into French".
Definition number_query : string := "What's the weather in 5?".

Definition two_tools_calls : list tool_call :=
  [ToolCall "call_1" "calculate" (sample_dumps product_args);
   ToolCall "call_2" "get_weather" (sample_dumps london_args)].

Definition division_calls : list tool_call :=
  [ToolCall "call_1" "calculate" (sample_dumps division_args)].

Definition translate_calls : list tool_call :=
  [ToolCall "call_1" "get_weather" (sample_dumps tokyo_args);
   ToolCall "call_2" "translate" (sample_dumps text_args)].

Definition number_calls : list tool_call :=
  [ToolCall "call_1" "get_weather" (sample_dumps tokyo_args);
   ToolCall "call_2" "get_weather" (sample_dumps number_args);
   ToolCall "call_3" "calculate" (sample_dumps product_args)].

(** The first request of a query offers the tools and is answered with the
    tool calls of the script; a request without tools is answered in text. *)
Definition sample_create (history : list event) (r : request)
  : outcome completion :=
  match req_tools r with
  | Some _ =>
      let text := user_text r in
      if decide (text = weather_query) then
        asks [ToolCall "call_1" "get_weather" (sample_dumps tokyo_args)]
      else if decide (text = two_tools_query) then asks two_tools_calls
      else if decide (text = division_query) then asks division_calls
      else if decide (text = translate_query) then asks translate_calls
      else if decide (text = number_query) then asks number_calls
      else says "Hello! How can I help you today?"
  | None => says "Here is what I found."
  end.

Definition sample_service : CompletionService := {|
  chat_completions_create := sample_create
|}.

(** A service that asks for a tool in every completion, the second one
    included. *)
Definition insistent_service : CompletionService := {|
  chat_completions_create _ _ :=
    asks [ToolCall "call_1" "get_weather" (sample_dumps tokyo_args)]
|}.

Definition sample_pydantic : Pydantic := {|
  lax_int _ := None;
  validation_error_str errors :=
    pretty (length errors) ++ " validation errors for PersonProfile"
|}.

Definition two_tools_message : chat_message :=
  ChatMessage None (Some two_tools_calls).

Definition greeting_message : chat_message :=
  ChatMessage (Some "Hello! How can I help you today?"%string) None.

Definition translate_message : chat_message :=
  ChatMessage None (Some translate_calls).

Definition number_message : chat_message :=
  ChatMessage None (Some number_calls).

Definition no_attribute_lower : exn :=
  Exc "AttributeError" "'int' object has no attribute 'lower'".

Definition division_message : chat_message :=
  ChatMessage None (Some division_calls).


(** ** Further scripted runs *)

Local Open Scope string_scope.

(** A power with 5001 digits. *)
Definition power_args : pyvalue := PyDict [("expression", PyStr "10**5000")].
Definition long_int : Z := 10 ^ 5000.

(** An integer of more than 4300 digits is at least 10 ^ 4300, and so has
    more than 14284 bits: the bits are counted first. *)
Fixpoint has_long_int (v : pyvalue) : bool :=
  match v with
  | PyInt z =>
      (14284 <=? Z.log2 (Z.abs z))%Z && (10 ^ 4300 <=? Z.abs z)%Z
  | PyList l => existsb has_long_int l
  | PyDict items => existsb (fun kv => has_long_int (snd kv)) items
  | _ => false
  end.

(** The scripted interpreter with the power, and with the limit of 4300
    digits that Python (3.11 and later) puts on the conversion of an
    integer to text. *)
Definition limit_interpreter : Interpreter := {|
  py_eval expression :=
    if decide (expression = "10**5000") then Return (PyInt long_int)
    else sample_eval expression;
  py_repr := sample_repr;
  json_loads text :=
    if decide (text = sample_dumps power_args) then Return power_args
    else sample_loads text;
  json_dumps v :=
    if has_long_int v then
      Raise (Exc "ValueError"
               "Exceeds the limit (4300 digits) for integer string conversion; use sys.set_int_max_str_digits() to increase the limit")
    else if float_free v then Return (sample_dumps v)
    else Raise (Exc "NotImplementedError" "a float in the scripted serializer");
  str_lower := str_map ascii_lower;
  str_upper := str_map ascii_upper;
  str_lower_ascii _ _ := eq_refl;
  str_upper_ascii _ _ := eq_refl
|}.

Definition malformed_query : string :=
  "What's the weather in Tokyo and in London, and what is one plus?".
Definition power_query : string :=
  "What's the weather in Tokyo and in London, and what is 10 to the power 5000?".

Definition tokyo_call : tool_call :=
  ToolCall "call_1" "get_weather" (sample_dumps tokyo_args).
Definition london_call : tool_call :=
  ToolCall "call_3" "get_weather" (sample_dumps london_args).
Definition broken_call : tool_call :=
  ToolCall "call_2" "calculate" broken_payload.
Definition power_call : tool_call :=
  ToolCall "call_2" "calculate" (sample_dumps power_args).

(** A service that asks for tools in its first completion and has reached
    its rate limit at the second. *)
Definition rate_limit : exn :=
  Exc "RateLimitError" "Rate limit reached for requests".

Definition faulty_service : CompletionService := {|
  chat_completions_create _ r :=
    match req_tools r with
    | Some _ =>
        let text := user_text r in
        if decide (text = malformed_query) then
          asks [tokyo_call; broken_call; london_call]
        else if decide (text = power_query) then
          asks [tokyo_call; power_call; london_call]
        else asks [tokyo_call]
    | None => Raise rate_limit
    end
|}.

(** A service that cannot be reached. *)
Definition connection_error : exn :=
  Exc "APIConnectionError" "Connection error.".

Definition unreachable_service : CompletionService := {|
  chat_completions_create _ _ := Raise connection_error
|}.

(** A profile as the service writes it, and the structured-output service
    that answers with it. *)
Definition bob_items : list (string * pyvalue) :=
  [("name", PyStr "  Bob Stone ");
   ("age", PyInt 34);
   ("occupation", PyStr "Software Engineer")].

Definition bob : PersonProfile :=
  MkPersonProfile "Bob Stone" 34 "Software Engineer".

Definition profile_interpreter : Interpreter := {|
  py_eval := sample_eval;
  py_repr := sample_repr;
  json_loads text :=
    if decide (text = sample_dumps (PyDict bob_items)) then
      Return (PyDict bob_items)
    else sample_loads text;
  json_dumps v := Return (sample_dumps v);
  str_lower := str_map ascii_lower;
  str_upper := str_map ascii_upper;
  str_lower_ascii _ _ := eq_refl;
  str_upper_ascii _ _ := eq_refl
|}.

Definition profile_service : StructuredService := {|
  structured_create _ _ := says (sample_dumps (PyDict bob_items))
|}.

(** The dict of [PersonProfile.model_json_schema()], as pydantic 2 derives
    it from the class: the keys in alphabetical order, the properties in
    the order of the fields. *)
Definition profile_schema : list (string * pyvalue) :=
  [("description", PyStr "Simple person profile with Pydantic validation");
   ("properties", PyDict [
      ("name", PyDict [("description", PyStr "The person's full name");
                       ("title", PyStr "Name");
                       ("type", PyStr "string")]);
      ("age", PyDict [("description", PyStr "Age must be between 0 and 150");
                      ("maximum", PyInt 150);
                      ("minimum", PyInt 0);
                      ("title", PyStr "Age");
                      ("type", PyStr "integer")]);
      ("occupation", PyDict [("description",
                              PyStr "The person's job or profession");
                             ("title", PyStr "Occupation");
                             ("type", PyStr "string")])
    ]);
   ("required", PyList [PyStr "name"; PyStr "age"; PyStr "occupation"]);
   ("title", PyStr "PersonProfile");
   ("type", PyStr "object")].

(** * Properties of the relay *)

Local Open Scope list_scope.

Section RelayFacts.
Context `{Interpreter} `{CompletionService}.

Lemma execute_tool_call_spec tc st :
  execute_tool_call tc st =
    (match tool_result tc with Return _ => Return tt | Raise e => Raise e end,
     Conversation
       (messages st ++ match tool_result tc with
                       | Return m => [m]
                       | Raise _ => []
                       end)
       (trace st ++ invocation_of tc)).
Proof.
  unfold execute_tool_call, tool_result, invocation_of, bind, lift, invoke,
    messages_append, obind.
  destruct st as [ms tr]; simpl.
  destruct (json_loads (call_arguments tc)) as [function_args|e]; simpl;
    [|by rewrite !app_nil_r].
  destruct (lookup_function (call_name tc)) as [f|e]; simpl;
    [|by rewrite !app_nil_r].
  destruct (call_kwargs f function_args) as [r|e]; simpl;
    [|by rewrite app_nil_r].
  destruct (json_dumps r) as [text|e]; simpl; [done|by rewrite app_nil_r].
Qed.

Lemma for_each_spec tcs st :
  for_each execute_tool_call tcs st =
    (outcome_of (failure_of tcs),
     Conversation (messages st ++ results_of tcs)
                  (trace st ++ invocations_until_failure tcs)).
Proof.
  revert st. induction tcs as [|tc tcs IH]; intros [ms tr]; simpl.
  - by rewrite !app_nil_r.
  - unfold bind. rewrite execute_tool_call_spec. simpl.
    destruct (tool_result tc) as [m|e]; simpl.
    + rewrite IH. simpl. by rewrite <- !(assoc_L (++)).
    + by rewrite app_nil_r.
Qed.

Lemma results_of_answers tcs :
  Forall2 answers (take (length (results_of tcs)) tcs) (results_of tcs).
Proof.
  induction tcs as [|tc tcs IH]; simpl; [constructor|].
  destruct (tool_result tc) as [m|e] eqn:Hm; simpl; [|constructor].
  constructor; [|done].
  unfold tool_result, obind in Hm.
  repeat case_match; simplify_eq. by eexists.
Qed.

Lemma failure_of_None tcs :
  failure_of tcs = None <-> Forall (fun tc => returns (tool_result tc)) tcs.
Proof.
  induction tcs as [|tc tcs IH]; simpl; [by split; [constructor|]|].
  rewrite Forall_cons. unfold returns at 1.
  destruct (tool_result tc) as [m|e].
  - rewrite IH. split; [intros Hall; split; [by eexists|done]|by intros [_ ?]].
  - split; [done|]. by intros [[m Hm] _].
Qed.

Lemma results_of_length tcs :
  failure_of tcs = None -> length (results_of tcs) = length tcs.
Proof.
  induction tcs as [|tc tcs IH]; simpl; [done|].
  destruct (tool_result tc); [|done]. intros Hf. simpl. by rewrite IH.
Qed.

Lemma results_of_served tcs :
  failure_of tcs = None ->
  Forall2 (fun tc m => tool_result tc = Return m) tcs (results_of tcs).
Proof.
  induction tcs as [|tc tcs IH]; simpl; [constructor|].
  destruct (tool_result tc) as [m|e] eqn:Hm; [|done].
  intros Hf. constructor; [done|by apply IH].
Qed.

Lemma requests_of_invocation tc :
  requests_of (invocation_of tc) = [].
Proof. unfold invocation_of. by repeat case_match. Qed.

Lemma requests_of_invocations tcs :
  requests_of (invocations_until_failure tcs) = [].
Proof.
  induction tcs as [|tc tcs IH]; simpl; [done|].
  destruct (tool_result tc); [|apply requests_of_invocation].
  unfold requests_of in *. rewrite omap_app, IH, app_nil_r.
  apply requests_of_invocation.
Qed.

(** The run when the first completion cannot be read. *)
Lemma run_first_fails user_query history e :
  (response <- chat_completions_create history (first_request user_query) ;;
   first_choice response)%py = Raise e ->
  run_conversation user_query history =
    (Raise e,
     Conversation (initial_messages user_query)
                  (history ++ [Requested (first_request user_query)])).
Proof.
  unfold run_conversation, converse, bind, create, lift, obind. simpl.
  fold (first_request user_query).
  destruct (chat_completions_create _ _) as [response|e']; simpl;
    [|by intros [= ->]].
  by intros ->.
Qed.

(** The run when the first completion asks for no tool. *)
Lemma run_without_tools user_query history response rm :
  chat_completions_create history (first_request user_query)
    = Return response ->
  first_choice response = Return rm ->
  truthy (tool_calls rm) = false ->
  run_conversation user_query history =
    (Return (content rm),
     Conversation (initial_messages user_query)
                  (history ++ [Requested (first_request user_query)])).
Proof.
  intros Hc Hm Ht.
  unfold run_conversation, converse, bind, create, lift. simpl.
  fold (first_request user_query). by rewrite Hc, Hm, Ht.
Qed.

(** The run when the first completion asks for the tools [tcs]. *)
Lemma run_with_tools user_query history response rm tcs :
  chat_completions_create history (first_request user_query)
    = Return response ->
  first_choice response = Return rm ->
  tool_calls rm = Some tcs ->
  tcs <> [] ->
  let ms := (initial_messages user_query
               ++ AssistantMessage rm :: results_of tcs)%list in
  let tr := (history ++ Requested (first_request user_query)
               :: invocations_until_failure tcs)%list in
  run_conversation user_query history =
    match failure_of tcs with
    | Some e => (Raise e, Conversation ms tr)
    | None =>
        ((second_response <-
            chat_completions_create tr (second_request user_query rm tcs) ;;
          second_message <- first_choice second_response ;;
          Return (content second_message))%py,
         Conversation ms
           (tr ++ [Requested (second_request user_query rm tcs)]))
    end.
Proof.
  intros Hc Hm Htc Hne ms tr.
  assert (Ht : truthy (Some tcs) = true) by (by destruct tcs).
  unfold run_conversation, converse, bind at 1 2, create at 1, lift at 1.
  simpl. fold (first_request user_query). rewrite Hc, Hm, Htc, Ht. simpl.
  unfold bind at 1, messages_append at 1. simpl.
  unfold bind at 1. rewrite for_each_spec. simpl.
  replace ((history ++ [Requested (first_request user_query)])
             ++ invocations_until_failure tcs) with tr
    by (subst tr; by rewrite <- (assoc_L (++))).
  replace ([RoleContent "system" system_prompt; RoleContent "user" user_query;
            AssistantMessage rm] ++ results_of tcs) with ms by done.
  destruct (failure_of tcs) as [e|]; simpl; [done|].
  unfold bind, create, lift, ret, obind. simpl.
  fold ms. unfold second_request. fold ms.
  destruct (chat_completions_create tr _) as [second|e]; simpl; [|done].
  by destruct (first_choice second).
Qed.

End RelayFacts.

Section RelayTheorems.
Context `{Interpreter} `{CompletionService}.

Lemma truthy_true calls :
  truthy calls = true -> exists tcs, calls = Some tcs /\ tcs <> [].
Proof. destruct calls as [[|tc tcs]|]; naive_solver. Qed.

Lemma new_events_eq user_query history r st events :
  run_conversation user_query history = (r, st) ->
  trace st = history ++ events ->
  new_events user_query history = events.
Proof.
  intros Hrun Htr. unfold new_events. rewrite Hrun. simpl.
  by rewrite Htr, drop_app_length.
Qed.

Lemma requests_of_cons_request r events :
  requests_of (Requested r :: events) = r :: requests_of events.
Proof. done. Qed.

Lemma requests_of_app events1 events2 :
  requests_of (events1 ++ events2) = requests_of events1 ++ requests_of events2.
Proof. apply omap_app. Qed.

Lemma new_events_first_fails user_query history e :
  (response <- chat_completions_create history (first_request user_query) ;;
   first_choice response)%py = Raise e ->
  new_events user_query history = [Requested (first_request user_query)].
Proof.
  intros Hrun%run_first_fails. by eapply new_events_eq.
Qed.

Lemma new_events_without_tools user_query history response rm :
  chat_completions_create history (first_request user_query)
    = Return response ->
  first_choice response = Return rm ->
  truthy (tool_calls rm) = false ->
  new_events user_query history = [Requested (first_request user_query)].
Proof.
  intros Hc Hm Ht. eapply new_events_eq; [by eapply run_without_tools|done].
Qed.

Lemma new_events_with_tools user_query history response rm tcs :
  chat_completions_create history (first_request user_query)
    = Return response ->
  first_choice response = Return rm ->
  tool_calls rm = Some tcs ->
  tcs <> [] ->
  new_events user_query history =
    Requested (first_request user_query) :: invocations_until_failure tcs
      ++ match failure_of tcs with
         | None => [Requested (second_request user_query rm tcs)]
         | Some _ => []
         end.
Proof.
  intros Hc Hm Htc Hne.
  pose proof (run_with_tools _ _ _ _ _ Hc Hm Htc Hne) as Hrun. simpl in Hrun.
  destruct (failure_of tcs) as [e|].
  - eapply new_events_eq; [exact Hrun|]. by rewrite app_nil_r.
  - eapply new_events_eq; [exact Hrun|]. simpl. by rewrite <- (assoc_L (++)).
Qed.

Lemma requests_with_tools user_query history response rm tcs :
  chat_completions_create history (first_request user_query)
    = Return response ->
  first_choice response = Return rm ->
  tool_calls rm = Some tcs ->
  tcs <> [] ->
  requests_issued user_query history =
    first_request user_query
      :: match failure_of tcs with
         | None => [second_request user_query rm tcs]
         | Some _ => []
         end.
Proof.
  intros Hc Hm Htc Hne. unfold requests_issued.
  rewrite (new_events_with_tools _ _ _ _ _ Hc Hm Htc Hne).
  rewrite requests_of_cons_request, requests_of_app.
  rewrite requests_of_invocations. by destruct (failure_of tcs).
Qed.

(** The requests of a run: the first one, and the second one when the
    first completion asked for tools and every tool call was served. *)
Lemma requests_issued_cases user_query history :
  requests_issued user_query history = [first_request user_query]
  \/ exists rm tcs,
       requests_issued user_query history =
         [first_request user_query; second_request user_query rm tcs].
Proof.
  destruct (chat_completions_create history (first_request user_query))
    as [response|e] eqn:Hc.
  2:{ left. unfold requests_issued.
      rewrite (new_events_first_fails _ _ e); [done|by rewrite Hc]. }
  destruct (first_choice response) as [rm|e] eqn:Hm.
  2:{ left. unfold requests_issued.
      rewrite (new_events_first_fails _ _ e); [done|by rewrite Hc]. }
  destruct (truthy (tool_calls rm)) eqn:Ht.
  2:{ left. unfold requests_issued.
      by rewrite (new_events_without_tools _ _ _ _ Hc Hm Ht). }
  apply truthy_true in Ht as (tcs & Htc & Hne).
  rewrite (requests_with_tools _ _ _ _ _ Hc Hm Htc Hne).
  destruct (failure_of tcs); [by left|right; by eexists _, _].
Qed.

(** C1. When the first completion carries N >= 1 tool calls, the second
    completion request, whenever it is issued, carries the conversation
    with exactly N tool results appended after the assistant message, the
    i-th result being that of the i-th tool call and tagged with its
    identifier (and its name); it is the last event of the run, after the
    handler calls; and it is issued as soon as every tool call is served. *)
Theorem tool_results_precede_second_request
    user_query history response rm tcs :
  chat_completions_create history (first_request user_query)
    = Return response ->
  first_choice response = Return rm ->
  tool_calls rm = Some tcs ->
  tcs <> [] ->
  (forall r2, requests_issued user_query history !! 1%nat = Some r2 ->
     exists results,
       req_messages r2 =
         initial_messages user_query ++ AssistantMessage rm :: results
       /\ length results = length tcs
       /\ Forall2 answers tcs results
       /\ Forall2 (fun tc m => tool_result tc = Return m) tcs results
       /\ exists calls,
            new_events user_query history =
              Requested (first_request user_query)
                :: calls ++ [Requested r2]
            /\ requests_of calls = [])
  /\ (Forall (fun tc => returns (tool_result tc)) tcs ->
      is_Some (requests_issued user_query history !! 1%nat)).
Proof.
  intros Hc Hm Htc Hne.
  rewrite (requests_with_tools _ _ _ _ _ Hc Hm Htc Hne).
  rewrite (new_events_with_tools _ _ _ _ _ Hc Hm Htc Hne).
  split.
  - destruct (failure_of tcs) as [e|] eqn:Hf; [done|].
    intros r2 [= <-]. exists (results_of tcs).
    split; [done|]. split; [by apply results_of_length|].
    split.
    { pose proof (results_of_answers tcs) as Hans.
      by rewrite (results_of_length _ Hf), firstn_all in Hans. }
    split; [by apply results_of_served|].
    exists (invocations_until_failure tcs).
    split; [done|apply requests_of_invocations].
  - intros Hall%failure_of_None. rewrite Hall. by eexists.
Qed.

(** C2. When the first completion carries no tool call, the run returns
    the text content of that completion as it is, its only request is the
    first one, and no handler is called. *)
Theorem no_tool_call_returns_first_content
    user_query history response rm :
  chat_completions_create history (first_request user_query)
    = Return response ->
  first_choice response = Return rm ->
  truthy (tool_calls rm) = false ->
  (run_conversation user_query history).1 = Return (content rm)
  /\ requests_issued user_query history = [first_request user_query]
  /\ handlers_invoked user_query history = [].
Proof.
  intros Hc Hm Ht. unfold requests_issued, handlers_invoked.
  rewrite (new_events_without_tools _ _ _ _ Hc Hm Ht).
  by rewrite (run_without_tools _ _ _ _ Hc Hm Ht).
Qed.

Lemma absent_tool_fails tc :
  available_functions !! call_name tc = None -> raises (tool_result tc).
Proof.
  intros Habs. unfold tool_result, lookup_function, obind. rewrite Habs.
  destruct (json_loads (call_arguments tc)); by eexists.
Qed.

Lemma failure_of_Exists tcs :
  Exists (fun tc => raises (tool_result tc)) tcs ->
  is_Some (failure_of tcs).
Proof.
  induction 1 as [tc tcs [e He]|tc tcs _ IH]; simpl.
  - by rewrite He.
  - by destruct (tool_result tc).
Qed.

(** C3. When a tool call of the first completion names a tool that the
    handler mapping does not have, the run ends with an exception and its
    only completion request is the first one. *)
Theorem unknown_tool_is_fatal user_query history response rm tcs :
  chat_completions_create history (first_request user_query)
    = Return response ->
  first_choice response = Return rm ->
  tool_calls rm = Some tcs ->
  Exists (fun tc => available_functions !! call_name tc = None) tcs ->
  raises (run_conversation user_query history).1
  /\ requests_issued user_query history = [first_request user_query].
Proof.
  intros Hc Hm Htc Habs.
  assert (Hne : tcs <> []) by (by destruct Habs).
  assert (Hf : is_Some (failure_of tcs)).
  { apply failure_of_Exists. eapply Exists_impl; [done|].
    apply absent_tool_fails. }
  destruct Hf as [e Hf].
  rewrite (requests_with_tools _ _ _ _ _ Hc Hm Htc Hne), Hf.
  split; [|done].
  pose proof (run_with_tools _ _ _ _ _ Hc Hm Htc Hne) as Hrun.
  simpl in Hrun. rewrite Hf in Hrun. rewrite Hrun. by eexists.
Qed.

(** C4. A run issues at most two completion requests, whatever the remote
    service answers, also when its second completion carries tool calls. *)
Theorem at_most_two_requests user_query history :
  (length (requests_issued user_query history) <= 2)%nat.
Proof.
  destruct (requests_issued_cases user_query history)
    as [->|(? & ? & ->)]; simpl; lia.
Qed.

Lemma failing_call_stops_loop served tc rest e :
  Forall (fun tc' => returns (tool_result tc')) served ->
  tool_result tc = Raise e ->
  failure_of (served ++ tc :: rest) = Some e
  /\ results_of (served ++ tc :: rest) = results_of served
  /\ length (results_of served) = length served
  /\ invocations_until_failure (served ++ tc :: rest) =
       invocations_until_failure served ++ invocation_of tc.
Proof.
  intros Hserved He.
  induction Hserved as [|tc' served [m Hm] _ IH]; simpl.
  - by rewrite He.
  - rewrite Hm. destruct IH as (-> & -> & Hlen & ->). simpl.
    by rewrite Hlen, (assoc_L (++)).
Qed.

(** C5, as the code has it. When the call of a handler raises, the run ends
    with that very exception: the relay has no [try], issues no second
    request, and appends a tool result for the calls served before and for
    no other.  (A failure that a handler catches itself is not an exception
    of the call: see [calculate].) *)
Theorem handler_exception_propagates
    user_query history response rm served tc rest function_args f e :
  chat_completions_create history (first_request user_query)
    = Return response ->
  first_choice response = Return rm ->
  tool_calls rm = Some (served ++ tc :: rest) ->
  Forall (fun tc' => returns (tool_result tc')) served ->
  json_loads (call_arguments tc) = Return function_args ->
  available_functions !! call_name tc = Some f ->
  call_kwargs f function_args = Raise e ->
  (run_conversation user_query history).1 = Raise e
  /\ requests_issued user_query history = [first_request user_query]
  /\ (exists earlier,
        handlers_invoked user_query history =
          earlier ++ [(call_name tc, function_args)])
  /\ exists results,
       messages (run_conversation user_query history).2 =
         initial_messages user_query ++ AssistantMessage rm :: results
       /\ Forall2 answers served results.
Proof.
  intros Hc Hm Htc Hserved Hargs Hf He.
  assert (Hne : served ++ tc :: rest <> []) by (by destruct served).
  assert (Hres : tool_result tc = Raise e).
  { unfold tool_result, lookup_function, obind. by rewrite Hargs, Hf, He. }
  destruct (failing_call_stops_loop served tc rest e Hserved Hres)
    as (Hfail & Hresults & Hlen & Hinv).
  pose proof (run_with_tools _ _ _ _ _ Hc Hm Htc Hne) as Hrun.
  simpl in Hrun. rewrite Hfail, Hresults, Hinv in Hrun.
  split; [by rewrite Hrun|].
  split; [by rewrite (requests_with_tools _ _ _ _ _ Hc Hm Htc Hne), Hfail|].
  split.
  - unfold handlers_invoked.
    rewrite (new_events_with_tools _ _ _ _ _ Hc Hm Htc Hne), Hfail, Hinv.
    rewrite app_nil_r. unfold invocation_of, lookup_function.
    rewrite Hargs, Hf. unfold invocations_of. simpl. rewrite omap_app.
    by eexists.
  - rewrite Hrun. simpl. eexists; split; [done|].
    pose proof (results_of_answers served) as Hans.
    by rewrite Hlen, firstn_all in Hans.
Qed.

Lemma appends_only_ret {A} (a : A) : appends_only (ret a).
Proof. by intros st. Qed.

Lemma appends_only_lift {A} (c : outcome A) : appends_only (lift c).
Proof. by intros st. Qed.

Lemma appends_only_bind {A B} (c : relay A) (k : A -> relay B) :
  appends_only c -> (forall a, appends_only (k a)) -> appends_only (bind c k).
Proof.
  intros Hc Hk st. unfold bind. specialize (Hc st).
  destruct (c st) as [[a|e] st']; simpl in *; [|done].
  by etrans; [|apply Hk].
Qed.

Lemma appends_only_create tools choice : appends_only (create tools choice).
Proof. by intros st. Qed.

Lemma appends_only_invoke function_name f function_args :
  appends_only (invoke function_name f function_args).
Proof. by intros st. Qed.

Lemma appends_only_append m : appends_only (messages_append m).
Proof. intros st. simpl. by apply prefix_app_r. Qed.

Lemma appends_only_execute tc : appends_only (execute_tool_call tc).
Proof.
  unfold execute_tool_call.
  repeat (apply appends_only_bind; [|intros ?]);
    auto using appends_only_lift, appends_only_invoke, appends_only_append.
Qed.

Lemma appends_only_for_each tcs :
  appends_only (for_each execute_tool_call tcs).
Proof.
  induction tcs as [|tc tcs IH]; simpl; [apply appends_only_ret|].
  apply appends_only_bind; [apply appends_only_execute|done].
Qed.

Lemma appends_only_converse : appends_only converse.
Proof.
  unfold converse.
  apply appends_only_bind; [apply appends_only_create|intros response].
  apply appends_only_bind; [apply appends_only_lift|intros rm].
  destruct (truthy (tool_calls rm)); [|apply appends_only_ret].
  apply appends_only_bind; [apply appends_only_append|intros _].
  apply appends_only_bind; [apply appends_only_for_each|intros _].
  apply appends_only_bind; [apply appends_only_create|intros second].
  apply appends_only_bind; [apply appends_only_lift|intros m].
  apply appends_only_ret.
Qed.

(** C8. Every statement of the relay only appends to [messages]: the
    requests, the append of the assistant message, each pass of the loop
    over the tool calls, the loop, and the whole of them; so a message
    keeps its place and its content from the state a statement starts in
    to the state it ends in, and the two messages a query starts with are
    the first two at the end of its run. *)
Theorem messages_only_appended :
  (forall tools choice, appends_only (create tools choice))
  /\ (forall m, appends_only (messages_append m))
  /\ (forall tc, appends_only (execute_tool_call tc))
  /\ (forall tcs, appends_only (for_each execute_tool_call tcs))
  /\ appends_only converse
  /\ (forall st i m,
        messages st !! i = Some m -> messages (converse st).2 !! i = Some m)
  /\ (forall user_query history,
        initial_messages user_query
          `prefix_of` messages (run_conversation user_query history).2).
Proof.
  split; [apply appends_only_create|].
  split; [apply appends_only_append|].
  split; [apply appends_only_execute|].
  split; [apply appends_only_for_each|].
  split; [apply appends_only_converse|].
  split.
  - intros st i m Hi. by eapply prefix_lookup_Some, appends_only_converse.
  - intros user_query history. unfold run_conversation.
    apply (appends_only_converse (Conversation _ _)).
Qed.

Lemma logs_only_bind {A B} (c : relay A) (k : A -> relay B) :
  logs_only c -> (forall a, logs_only (k a)) -> logs_only (bind c k).
Proof.
  intros Hc Hk st. unfold bind. specialize (Hc st).
  destruct (c st) as [[a|e] st']; simpl in *; [|done].
  by etrans; [|apply Hk].
Qed.

Lemma logs_only_create tools choice : logs_only (create tools choice).
Proof. intros st. simpl. by apply prefix_app_r. Qed.

Lemma logs_only_execute tc : logs_only (execute_tool_call tc).
Proof.
  intros st. rewrite execute_tool_call_spec. simpl. by apply prefix_app_r.
Qed.

Lemma logs_only_for_each tcs : logs_only (for_each execute_tool_call tcs).
Proof.
  intros st. rewrite for_each_spec. simpl. by apply prefix_app_r.
Qed.

Lemma logs_only_pure {A} (c : relay A) :
  (forall st, trace (c st).2 = trace st) -> logs_only c.
Proof. intros Hc st. by rewrite Hc. Qed.

Lemma logs_only_converse : logs_only converse.
Proof.
  unfold converse.
  apply logs_only_bind; [apply logs_only_create|intros response].
  apply logs_only_bind; [by apply logs_only_pure|intros rm].
  destruct (truthy (tool_calls rm)); [|by apply logs_only_pure].
  apply logs_only_bind; [by apply logs_only_pure|intros _].
  apply logs_only_bind; [apply logs_only_for_each|intros _].
  apply logs_only_bind; [apply logs_only_create|intros second].
  apply logs_only_bind; [by apply logs_only_pure|intros m].
  by apply logs_only_pure.
Qed.

(** The trace at the end of a run is the history it started from followed
    by the events of the run. *)
Lemma trace_extends_history user_query history :
  trace (run_conversation user_query history).2 =
    history ++ new_events user_query history.
Proof.
  unfold new_events, run_conversation.
  destruct (logs_only_converse
              (Conversation (initial_messages user_query) history))
    as [events ->].
  by rewrite drop_app_length.
Qed.

(** X8. The tool calls of the second completion are not read: its text
    content is the answer, also when it asks for tools again, and the
    handlers called are those of the first completion only. *)
Lemma second_tool_calls_ignored
    user_query history response rm tcs second_response second_message :
  chat_completions_create history (first_request user_query)
    = Return response ->
  first_choice response = Return rm ->
  tool_calls rm = Some tcs ->
  tcs <> [] ->
  failure_of tcs = None ->
  chat_completions_create
    (history ++ Requested (first_request user_query)
       :: invocations_until_failure tcs)
    (second_request user_query rm tcs) = Return second_response ->
  first_choice second_response = Return second_message ->
  (run_conversation user_query history).1 = Return (content second_message)
  /\ handlers_invoked user_query history =
       invocations_of (invocations_until_failure tcs).
Proof.
  intros Hc Hm Htc Hne Hf Hc2 Hm2.
  pose proof (run_with_tools _ _ _ _ _ Hc Hm Htc Hne) as Hrun.
  simpl in Hrun. rewrite Hf, Hc2 in Hrun. simpl in Hrun.
  rewrite Hm2 in Hrun. simpl in Hrun. rewrite Hrun. split; [done|].
  unfold handlers_invoked.
  rewrite (new_events_with_tools _ _ _ _ _ Hc Hm Htc Hne), Hf.
  unfold invocations_of. simpl. by rewrite omap_app, app_nil_r.
Qed.

(** X9. The exception of a tool call that names no handler, once the
    calls before it are served and its arguments are read, is the
    [KeyError] of its name. *)
Lemma unknown_tool_key_error
    user_query history response rm served tc rest function_args :
  chat_completions_create history (first_request user_query)
    = Return response ->
  first_choice response = Return rm ->
  tool_calls rm = Some (served ++ tc :: rest) ->
  Forall (fun tc' => returns (tool_result tc')) served ->
  json_loads (call_arguments tc) = Return function_args ->
  available_functions !! call_name tc = None ->
  (run_conversation user_query history).1 = Raise (KeyError (call_name tc)).
Proof.
  intros Hc Hm Htc Hserved Hargs Habs.
  assert (Hne : served ++ tc :: rest <> []) by (by destruct served).
  assert (Hres : tool_result tc = Raise (KeyError (call_name tc))).
  { unfold tool_result, lookup_function, obind. by rewrite Hargs, Habs. }
  destruct (failing_call_stops_loop served tc rest _ Hserved Hres)
    as (Hfail & _).
  pose proof (run_with_tools _ _ _ _ _ Hc Hm Htc Hne) as Hrun.
  simpl in Hrun. rewrite Hfail in Hrun. by rewrite Hrun.
Qed.

End RelayTheorems.

(** * Properties of the tool handlers *)

Section HandlerTheorems.
Context `{Interpreter}.

Lemma all_allowed_chars (cs : list string) :
  all_allowed (PyStr <$> cs) =
    Return (forallb (fun c => bool_decide (c ∈ allowed_chars)) cs).
Proof.
  induction cs as [|c cs IH]; [done|].
  rewrite fmap_cons. cbn [all_allowed]. rewrite IH. simpl.
  by destruct (bool_decide (c ∈ allowed_chars)).
Qed.

Lemma calculate_str (expression : string) :
  calculate (PyStr expression) =
    if forallb (fun c => bool_decide (c ∈ allowed_chars))
               (str_chars expression)
    then match py_eval expression with
         | Return result =>
             Return (PyDict [("expression", PyStr expression);
                             ("result", result)])
         | Raise e => Return (PyDict [("error", PyStr (exc_str e))])
         end
    else Return invalid_characters.
Proof.
  unfold calculate, py_iter, obind, try_except. rewrite all_allowed_chars.
  destruct (forallb _ _); simpl; [|done].
  by destruct (py_eval expression).
Qed.

Lemma calculate_returns (expression : pyvalue) :
  returns (calculate expression).
Proof.
  unfold calculate, try_except.
  match goal with |- returns (match ?c with _ => _ end) => destruct c end;
    by eexists.
Qed.

End HandlerTheorems.

(** C9. [calculate] never raises, whatever it is given.  On a string with
    a character outside the allow-list "0123456789+-*/(). " it returns the
    record whose error is "Invalid characters in expression", and does so
    whatever [eval] would do with the string; on a string of allowed
    characters it returns the error record with the text of the exception
    when [eval] raises, and the expression with its value when [eval]
    returns. *)
Theorem calculate_never_raises (I : Interpreter) (expression : string) :
  (forall v : pyvalue, returns (calculate v))
  /\ ((exists c, c ∈ str_chars expression
                 /\ c ∉ str_chars "0123456789+-*/(). ") ->
      forall I' : Interpreter,
        @calculate I' (PyStr expression) =
          Return (PyDict [("error", PyStr "Invalid characters in expression")]))
  /\ (Forall (fun c => c ∈ str_chars "0123456789+-*/(). ")
             (str_chars expression) ->
      (forall e, py_eval expression = Raise e ->
         calculate (PyStr expression) =
           Return (PyDict [("error", PyStr (exc_str e))]))
      /\ (forall result, py_eval expression = Return result ->
            calculate (PyStr expression) =
              Return (PyDict [("expression", PyStr expression);
                              ("result", result)]))).
Proof.
  split; [apply calculate_returns|]. split.
  - intros (c & Hin & Hout) I'. rewrite calculate_str.
    destruct (forallb _ _) eqn:Hall; [|done].
    rewrite forallb_forall in Hall.
    apply list_elem_of_In, Hall, bool_decide_eq_true in Hin. done.
  - intros Hall.
    assert (forallb (fun c => bool_decide (c ∈ allowed_chars))
              (str_chars expression) = true) as Hb.
    { apply forallb_forall. intros c Hc%list_elem_of_In.
      apply bool_decide_eq_true. by eapply Forall_forall in Hall. }
    split; intros ? Heval; by rewrite calculate_str, Hb, Heval.
Qed.

(** C10, as the code has it. On every location string [get_weather]
    returns: the temperature, condition and humidity it reports depend on
    the lower-cased location only, and are 20, "Unknown" and 50 when that
    is not in the table, while the location is reported as it was given
    and the unit as it was passed.  On every symbol string
    [get_stock_price] returns a record that depends on the upper-cased
    symbol only, with price, change and change_percent 0 when that is not
    in the table. *)
Theorem lookup_handlers_case_insensitive (I : Interpreter) :
  (forall location unit, returns (get_weather (PyStr location) unit))
  /\ (forall l1 l2 u1 u2 key,
        str_lower l1 = str_lower l2 ->
        key ∈ ["temperature"; "condition"; "humidity"] ->
        field key (get_weather (PyStr l1) u1) =
          field key (get_weather (PyStr l2) u2))
  /\ (forall location unit,
        field "location" (get_weather (PyStr location) unit)
          = Some (PyStr location)
        /\ field "unit" (get_weather (PyStr location) unit) = Some unit)
  /\ (forall location unit,
        weather_data !! str_lower location = None ->
        get_weather (PyStr location) unit =
          Return (PyDict [("location", PyStr location);
                          ("temperature", PyInt 20);
                          ("unit", unit);
                          ("condition", PyStr "Unknown");
                          ("humidity", PyInt 50)]))
  /\ (forall symbol, returns (get_stock_price (PyStr symbol)))
  /\ (forall s1 s2,
        str_upper s1 = str_upper s2 ->
        get_stock_price (PyStr s1) = get_stock_price (PyStr s2))
  /\ (forall symbol,
        stock_data !! str_upper symbol = None ->
        get_stock_price (PyStr symbol) =
          Return (PyDict [("symbol", PyStr (str_upper symbol));
                          ("price", PyInt 0);
                          ("change", PyInt 0);
                          ("change_percent", PyInt 0)])).
Proof.
  split; [intros; by eexists|].
  split.
  { intros l1 l2 u1 u2 key Hl Hkey. unfold get_weather. simpl. rewrite Hl.
    set_unfold. by destruct Hkey as [->|[->|[->|[]]]]. }
  split; [done|].
  split; [intros location unit Hnone; unfold get_weather; simpl;
          by rewrite Hnone|].
  split; [intros; by eexists|].
  split; [intros s1 s2 Hs; unfold get_stock_price; simpl; by rewrite Hs|].
  intros symbol Hnone. unfold get_stock_price. simpl. by rewrite Hnone.
Qed.

(** * Properties of the validated profile *)

Section ValidationTheorems.
Context `{Pydantic}.

Lemma validate_age_200 : validate_age (PyInt 200) = inl (less_than_equal 150).
Proof. done. Qed.

(** C7. A dict whose age is 200 fails the validation of [PersonProfile]
    with an error on the field age (the bound 150 is exceeded), whatever
    its other entries are; the validation is a function of the dict alone,
    and [example_with_validation_error], which validates such a dict,
    catches the error, prints it and issues no completion request. *)
Theorem age_200_fails_validation (items : list (string * pyvalue)) :
  dict_get items "age" = Some (PyInt 200) ->
  (exists errors,
     validate_fields (PyDict items) = inl errors
     /\ ("age", less_than_equal 150) ∈ errors
     /\ model_validate (PyDict items) = Raise (ValidationError errors))
  /\ (forall st,
        example_with_validation_error st =
          (Return tt, Conversation (messages st) (trace st ++ example_output))
        /\ requests_of (trace (example_with_validation_error st).2) =
             requests_of (trace st)).
Proof.
  intros Hage. split.
  - unfold model_validate, validate_fields, validate_field.
    rewrite Hage, validate_age_200.
    destruct (dict_get items "name") as [n|];
      [destruct (validate_name n)|];
      (destruct (dict_get items "occupation") as [o|];
         [destruct (validate_str o)|]);
      simpl; eexists; (split; [done|]); (split; [|done]); set_solver.
  - intros [ms tr].
    assert (example_with_validation_error (Conversation ms tr) =
              (Return tt, Conversation ms (tr ++ example_output))) as ->.
    { unfold example_with_validation_error, bind, print, try_relay, lift, ret.
      simpl. by rewrite <- !(assoc_L (++)). }
    split; [done|]. simpl. unfold requests_of.
    by rewrite omap_app, app_nil_r.
Qed.

End ValidationTheorems.

(** * Further properties: strings and validation *)

Local Open Scope string_scope.

Lemma append_cons c (s1 s2 : string) : String c s1 ++ s2 = String c (s1 ++ s2).
Proof. done. Qed.

Lemma append_nil (s : string) : "" ++ s = s.
Proof. done. Qed.

Lemma str_join_chars s : str_join (str_chars s) = s.
Proof.
  induction s as [|c s IH]; simpl; [done|].
  destruct (str_chars s) as [|ch chs]; [by rewrite <- IH|].
  cbn [str_join] in *.
  destruct (continues ch); cbn [str_join];
    by rewrite ?append_cons, ?append_nil, IH.
Qed.

Lemma str_chars_head c s :
  exists t chs, str_chars (String c s) = String c t :: chs.
Proof.
  simpl. destruct (str_chars s) as [|ch chs]; [by eexists _, _|].
  destruct (continues ch); by eexists _, _.
Qed.

Lemma str_chars_wf s : chars_wf (str_chars s).
Proof.
  induction s as [|c s IH]; simpl; [done|].
  destruct (str_chars s) as [|ch chs]; simpl in *.
  { split; [by exists c, ""|constructor]. }
  destruct IH as [(c' & t & -> & Ht) Hrest].
  destruct (continues (String c' t)) eqn:Hc; simpl in *.
  - split; [|done]. exists c, (String c' t). split; [done|].
    simpl. by rewrite Hc, Ht.
  - split; [by exists c, ""|]. constructor; [|done].
    split; [by exists c', t|done].
Qed.

Lemma chars_wf_tail ch chars : chars_wf (ch :: chars) -> chars_wf chars.
Proof.
  intros [_ Hrest]. destruct chars as [|ch' rest]; [done|].
  inversion Hrest as [|?? [? _] ?]; subst. by split.
Qed.

Lemma chars_wf_drop n chars : chars_wf chars -> chars_wf (drop n chars).
Proof.
  revert chars. induction n as [|n IH]; intros [|ch chars] Hwf; simpl; try done.
  by eapply IH, chars_wf_tail.
Qed.

Lemma chars_wf_take n chars : chars_wf chars -> chars_wf (take n chars).
Proof.
  destruct chars as [|ch chars], n as [|n]; simpl; try done.
  intros [Hch Hrest]. split; [done|]. by apply Forall_take.
Qed.

Lemma str_chars_continuations t rest :
  continuations t = true ->
  Forall is_lead_char rest ->
  str_chars (str_join rest) = rest ->
  str_chars (t ++ str_join rest) =
    match t with EmptyString => rest | _ => t :: rest end.
Proof.
  intros Ht Hrest Hjoin. induction t as [|b t IH]; [done|].
  simpl in Ht. apply andb_true_iff in Ht as [Hb Ht].
  simpl. rewrite (IH Ht). destruct t as [|b' t'].
  - destruct rest as [|r rest']; [done|].
    inversion Hrest as [|?? [_ Hr] ?]; subst. by rewrite Hr.
  - simpl in Ht. apply andb_true_iff in Ht as [Hb' _]. simpl. by rewrite Hb'.
Qed.

Lemma str_chars_join chars :
  chars_wf chars -> str_chars (str_join chars) = chars.
Proof.
  induction chars as [|ch rest IH]; [done|].
  intros Hwf. pose proof (chars_wf_tail _ _ Hwf) as Hwf'.
  destruct Hwf as [(c & t & -> & Ht) Hrest].
  specialize (IH Hwf'). simpl.
  rewrite (str_chars_continuations t rest Ht Hrest IH).
  destruct t as [|b t'].
  - destruct rest as [|r rest']; [done|].
    inversion Hrest as [|?? [_ Hr] ?]; subst. by rewrite Hr.
  - simpl in Ht. apply andb_true_iff in Ht as [Hb _]. simpl. by rewrite Hb.
Qed.

Lemma str_chars_app s1 s2 :
  continues s2 = false ->
  str_chars (s1 ++ s2) = (str_chars s1 ++ str_chars s2)%list.
Proof.
  intros Hs2. induction s1 as [|c s1 IH]; [done|].
  rewrite append_cons. cbn [str_chars]. rewrite IH.
  destruct (str_chars s1) as [|ch chs]; simpl;
    [|by destruct (continues ch)].
  destruct s2 as [|c2 s2]; [done|].
  destruct (str_chars_head c2 s2) as (t & chs & ->). simpl in *.
  by rewrite Hs2.
Qed.

Lemma str_join_nil chars :
  chars_wf chars -> str_join chars = "" -> chars = [].
Proof.
  destruct chars as [|ch rest]; [done|].
  by intros [(c & t & -> & _) _].
Qed.

Lemma str_join_inj chars1 chars2 :
  chars_wf chars1 -> chars_wf chars2 ->
  str_join chars1 = str_join chars2 -> chars1 = chars2.
Proof.
  intros H1 H2 Heq. rewrite <- (str_chars_join chars1 H1).
  rewrite <- (str_chars_join chars2 H2). by rewrite Heq.
Qed.

Lemma lstrip_chars_drop l : exists n, lstrip_chars l = drop n l.
Proof.
  induction l as [|c l [n IH]]; simpl; [by exists 0%nat|].
  destruct (char_isspace c); [by exists (S n)|by exists 0%nat].
Qed.



Lemma rstrip_chars_take l : exists n, rstrip_chars l = take n l.
Proof.
  unfold rstrip_chars. destruct (lstrip_chars_drop (rev l)) as [n ->].
  exists (length l - n)%nat.
  rewrite !rev_alt. fold (reverse l).
  fold (reverse (drop n (reverse l))).
  by rewrite drop_reverse, reverse_involutive.
Qed.

Lemma strip_chars_wf l : chars_wf l -> chars_wf (rstrip_chars (lstrip_chars l)).
Proof.
  intros Hwf. destruct (lstrip_chars_drop l) as [n ->].
  destruct (rstrip_chars_take (drop n l)) as [m ->].
  by apply chars_wf_take, chars_wf_drop.
Qed.

Lemma chars_of_strip s :
  str_chars (str_strip s) = rstrip_chars (lstrip_chars (str_chars s)).
Proof. apply str_chars_join, strip_chars_wf, str_chars_wf. Qed.

Lemma chars_inj s1 s2 : str_chars s1 = str_chars s2 -> s1 = s2.
Proof.
  intros Heq. rewrite <- (str_join_chars s1), <- (str_join_chars s2).
  by rewrite Heq.
Qed.

Lemma lstrip_chars_nil l :
  lstrip_chars l = [] <-> Forall (fun c => char_isspace c = true) l.
Proof.
  induction l as [|c l IH]; simpl; [by split; [constructor|]|].
  destruct (char_isspace c) eqn:Hc.
  - rewrite IH. split; [by constructor|by inversion 1].
  - split; [done|]. inversion 1; congruence.
Qed.

Lemma lstrip_chars_snoc l c :
  char_isspace c = false -> lstrip_chars (l ++ [c]) = (lstrip_chars l ++ [c])%list.
Proof.
  intros Hc. induction l as [|x l IH]; simpl; [by rewrite Hc|].
  by destruct (char_isspace x).
Qed.

Lemma rstrip_chars_cons c l :
  char_isspace c = false -> rstrip_chars (c :: l) = c :: rstrip_chars l.
Proof.
  intros Hc. unfold rstrip_chars. simpl.
  by rewrite lstrip_chars_snoc, rev_app_distr.
Qed.

Lemma lstrip_chars_head l :
  lstrip_chars l = []
  \/ exists c rest, lstrip_chars l = c :: rest /\ char_isspace c = false.
Proof.
  induction l as [|c l IH]; simpl; [by left|].
  destruct (char_isspace c) eqn:Hc; [done|]. right. by eexists _, _.
Qed.

Lemma lstrip_chars_idem l : lstrip_chars (lstrip_chars l) = lstrip_chars l.
Proof.
  destruct (lstrip_chars_head l) as [->|(c & rest & -> & Hc)]; [done|].
  simpl. by rewrite Hc.
Qed.

Lemma rstrip_chars_idem l : rstrip_chars (rstrip_chars l) = rstrip_chars l.
Proof.
  unfold rstrip_chars. by rewrite rev_involutive, lstrip_chars_idem.
Qed.

Lemma strip_chars_head l :
  rstrip_chars (lstrip_chars l) = [] /\ lstrip_chars l = []
  \/ exists c rest,
       rstrip_chars (lstrip_chars l) = c :: rest /\ char_isspace c = false.
Proof.
  destruct (lstrip_chars_head l) as [->|(c & rest & -> & Hc)]; [by left|].
  right. rewrite rstrip_chars_cons by done. by eexists _, _.
Qed.

Lemma str_strip_idempotent s : str_strip (str_strip s) = str_strip s.
Proof.
  apply chars_inj. rewrite !chars_of_strip.
  set (l := str_chars s).
  destruct (strip_chars_head l) as [[-> _]|(c & rest & Heq & Hc)]; [done|].
  rewrite Heq. simpl. rewrite Hc. rewrite <- Heq. apply rstrip_chars_idem.
Qed.

Lemma str_strip_empty s :
  str_strip s = "" <->
  Forall (fun c => char_isspace c = true) (str_chars s).
Proof.
  rewrite <- lstrip_chars_nil. split.
  - intros Heq. apply (f_equal str_chars) in Heq.
    rewrite chars_of_strip in Heq. simpl in Heq.
    destruct (strip_chars_head (str_chars s))
      as [[_ ?]|(c & rest & Hc & _)]; [done|congruence].
  - intros Heq. apply chars_inj. rewrite chars_of_strip, Heq. done.
Qed.

Lemma str_len_app (s1 s2 : string) :
  continues s2 = false ->
  str_len (s1 ++ s2) = (str_len s1 + str_len s2)%nat.
Proof.
  intros Hs2. unfold str_len. by rewrite str_chars_app, length_app.
Qed.

Lemma chars_of_take n s : str_chars (str_take n s) = take n (str_chars s).
Proof. apply str_chars_join, chars_wf_take, str_chars_wf. Qed.

Lemma str_take_len n s : str_len (str_take n s) = (n `min` str_len s)%nat.
Proof. unfold str_len. by rewrite chars_of_take, length_take. Qed.

Lemma str_take_app n s1 s2 :
  (n <= str_len s1)%nat -> continues s2 = false ->
  str_take n (s1 ++ s2) = str_take n s1.
Proof.
  intros Hn Hs2. unfold str_take.
  by rewrite str_chars_app, take_app_le.
Qed.

Lemma str_take_all n s : (str_len s <= n)%nat -> str_take n s = s.
Proof.
  intros Hn. unfold str_take. rewrite take_ge by done. apply str_join_chars.
Qed.

Local Open Scope list_scope.









Section ProfileFacts.
Context `{Pydantic}.

Lemma validate_name_inv v n :
  validate_name v = inr n ->
  exists s, v = PyStr s /\ n = str_strip s /\ str_strip s <> "".
Proof.
  unfold validate_name, validate_str, name_must_not_be_empty.
  destruct v; try done. case_decide; [done|]. intros [= <-]. by eexists.
Qed.

Lemma validate_age_inv v z :
  validate_age v = inr z -> (0 <= z <= 150)%Z.
Proof.
  unfold validate_age, within_bounds.
  destruct (validate_int v) as [e|z']; [done|].
  repeat case_match; try done. intros [= <-]. lia.
Qed.

Lemma validate_fields_inv obj p :
  validate_fields obj = inr p ->
  exists items,
    obj = PyDict items
    /\ validate_field items "name" validate_name = inr (name p)
    /\ validate_field items "age" validate_age = inr (age p)
    /\ validate_field items "occupation" validate_str = inr (occupation p).
Proof.
  unfold validate_fields. destruct obj as [| | | | |?|items]; try done.
  destruct (validate_field items "name" validate_name) as [?|n] eqn:Hn;
    destruct (validate_field items "age" validate_age) as [?|a] eqn:Ha;
    destruct (validate_field items "occupation" validate_str) as [?|o] eqn:Ho;
    try done.
  intros [= <-]. by exists items.
Qed.

Lemma model_validate_inv obj p :
  model_validate obj = Return p -> validate_fields obj = inr p.
Proof.
  unfold model_validate. by destruct (validate_fields obj); intros [= ->].
Qed.

(** What a dict that is accepted has, and what the profile takes from
    it. *)
Lemma model_validate_fields obj p :
  model_validate obj = Return p ->
  (0 <= age p <= 150)%Z
  /\ exists items n o,
       obj = PyDict items
       /\ dict_get items "name" = Some (PyStr n)
       /\ name p = str_strip n /\ str_strip n <> ""%string
       /\ dict_get items "occupation" = Some (PyStr o) /\ occupation p = o.
Proof.
  intros (items & -> & Hn & Ha & Ho)%model_validate_inv%validate_fields_inv.
  unfold validate_field in *.
  destruct (dict_get items "name") as [vn|] eqn:Hgn; [|done].
  destruct (dict_get items "age") as [va|]; [|done].
  destruct (dict_get items "occupation") as [vo|] eqn:Hgo; [|done].
  apply validate_name_inv in Hn as (n & -> & Hname & Hne).
  apply validate_age_inv in Ha.
  destruct vo; try done. injection Ho as Ho.
  split; [exact Ha|]. by exists items, n, s.
Qed.

(** X15. A profile that [model_validate] returns is valid: its age is
    between 0 and 150, its name is the stripped name of the input and is
    not empty, and its occupation is that of the input. *)
Theorem validated_profile_is_valid obj p :
  model_validate obj = Return p ->
  (0 <= age p <= 150)%Z
  /\ name p <> ""
  /\ str_strip (name p) = name p
  /\ exists items n o,
       obj = PyDict items
       /\ dict_get items "name" = Some (PyStr n) /\ name p = str_strip n
       /\ dict_get items "occupation" = Some (PyStr o) /\ occupation p = o.
Proof.
  intros (Ha & items & n & o & -> & Hn & Hname & Hne & Ho & Hocc)
    %model_validate_fields.
  split; [exact Ha|]. split; [by rewrite Hname|].
  split; [by rewrite Hname, str_strip_idempotent|].
  by exists items, n, o.
Qed.

(** X16. Validating the fields of a validated profile gives the profile
    back. *)
Theorem validation_round_trip obj p :
  model_validate obj = Return p ->
  model_validate (profile_dict p) = Return p.
Proof.
  intros (Hage & items & n & o & -> & Hn & Hname & Hne & Ho & Hocc)
    %model_validate_fields.
  assert (Hstrip : str_strip (name p) = name p)
    by (by rewrite Hname, str_strip_idempotent).
  unfold model_validate, validate_fields, profile_dict, validate_field.
  simpl. unfold validate_name, validate_age, name_must_not_be_empty. simpl.
  rewrite Hstrip. case_decide; [congruence|].
  unfold within_bounds.
  destruct (Z.ltb_spec (age p) 0); [lia|].
  destruct (Z.ltb_spec 150 (age p)); [lia|]. by destruct p.
Qed.

Lemma validate_well_typed items n z o :
  dict_get items "name" = Some (PyStr n) ->
  dict_get items "age" = Some (PyInt z) ->
  dict_get items "occupation" = Some (PyStr o) ->
  validate_fields (PyDict items) =
    match (if decide (str_strip n = "")
           then inl (value_error "Name cannot be empty")
           else inr (str_strip n)),
          within_bounds z with
    | inr n', inr z' => inr (MkPersonProfile n' z' o)
    | rn, rz => inl (error_of "name" rn ++ error_of "age" rz)
    end.
Proof.
  intros Hn Ha Ho.
  unfold validate_fields, validate_field. rewrite Hn, Ha, Ho. simpl.
  unfold validate_name, validate_age, name_must_not_be_empty. simpl.
  case_decide; destruct (within_bounds z); simpl; by rewrite ?app_nil_r.
Qed.

Lemma within_bounds_cases z :
  (z < 0 /\ within_bounds z = inl (greater_than_equal 0))
  \/ (150 < z /\ within_bounds z = inl (less_than_equal 150))
  \/ (0 <= z <= 150 /\ within_bounds z = inr z).
Proof.
  unfold within_bounds.
  destruct (Z.ltb_spec z 0); [by left|].
  destruct (Z.ltb_spec 150 z); [right; by left|right; right; split; [lia|done]].
Qed.

(** X17. A dict with a string name, an integer age and a string
    occupation is accepted exactly when the age is between 0 and 150, both
    included, and the name has a code point that is not white space; the
    profile then has the stripped name.  An age below 0, an age above 150
    and a blank name each give their own error. *)
Theorem well_typed_profile_accepted_iff items n z o :
  dict_get items "name" = Some (PyStr n) ->
  dict_get items "age" = Some (PyInt z) ->
  dict_get items "occupation" = Some (PyStr o) ->
  (returns (model_validate (PyDict items)) <->
     0 <= z <= 150
     /\ Exists (fun c => char_isspace c = false) (str_chars n))
  /\ (returns (model_validate (PyDict items)) ->
      model_validate (PyDict items) =
        Return (MkPersonProfile (str_strip n) z o))
  /\ (z < 0 ->
      exists errors, validate_fields (PyDict items) = inl errors
        /\ ("age"%string, greater_than_equal 0) ∈ errors)
  /\ (150 < z ->
      exists errors, validate_fields (PyDict items) = inl errors
        /\ ("age"%string, less_than_equal 150) ∈ errors)
  /\ (Forall (fun c => char_isspace c = true) (str_chars n) ->
      exists errors, validate_fields (PyDict items) = inl errors
        /\ ("name"%string, value_error "Name cannot be empty") ∈ errors).
Proof.
  intros Hn Ha Ho.
  pose proof (validate_well_typed _ _ _ _ Hn Ha Ho) as Hform.
  assert (Hspace : str_strip n <> "" <->
            Exists (fun c => char_isspace c = false) (str_chars n)).
  { rewrite str_strip_empty. split.
    - intros Hno.
      destruct (decide (Exists (fun c => char_isspace c = false)
                          (str_chars n))) as [|Hnex]; [done|].
      exfalso. apply Hno. apply Forall_Exists_neg in Hnex.
      eapply Forall_impl; [exact Hnex|].
      intros c. simpl. by destruct (char_isspace c).
    - intros (c & Hin & Hc)%Exists_exists Hall.
      rewrite Forall_forall in Hall. apply Hall in Hin. congruence. }
  unfold model_validate, returns. rewrite Hform.
  split; [|split; [|split; [|split]]].
  - rewrite <- Hspace.
    destruct (within_bounds_cases z) as [[? ->]|[[? ->]|[? ->]]];
      case_decide; simpl; split; try (intros [? ?]; done);
      try (intros [? ?]; first [lia|done]).
    intros _. by eexists.
  - case_decide; [by intros [? ?]|].
    destruct (within_bounds_cases z) as [[? ->]|[[? ->]|[? ->]]];
      simpl; by intros [? ?].
  - intros Hlt.
    destruct (within_bounds_cases z) as [[? ->]|[[? ->]|[? ->]]]; try lia.
    case_decide; simpl; eexists; (split; [done|]);
      apply list_elem_of_In; simpl; auto.
  - intros Hgt.
    destruct (within_bounds_cases z) as [[? ->]|[[? ->]|[? ->]]]; try lia.
    case_decide; simpl; eexists; (split; [done|]);
      apply list_elem_of_In; simpl; auto.
  - intros Hall%str_strip_empty. rewrite decide_True by done.
    destruct (within_bounds z); simpl; eexists; (split; [done|]);
      apply list_elem_of_In; simpl; auto.
Qed.

(** X18. The errors of a dict that fails: at least one, one entry at most
    for a field, in the order of the declarations, and [missing] for a
    field the dict does not have. *)
Theorem validation_errors_by_field items errors :
  validate_fields (PyDict items) = inl errors ->
  errors <> []
  /\ errors.*1 `sublist_of` ["name"%string; "age"%string; "occupation"%string]
  /\ (forall f, f ∈ ["name"%string; "age"%string; "occupation"%string] ->
        dict_get items f = None -> (f, missing) ∈ errors).
Proof.
  unfold validate_fields, validate_field.
  destruct (dict_get items "name") as [vn|] eqn:Hn;
    [destruct (validate_name vn)|];
    (destruct (dict_get items "age") as [va|] eqn:Ha;
       [destruct (validate_age va)|]);
    (destruct (dict_get items "occupation") as [vo|] eqn:Ho;
       [destruct (validate_str vo)|]);
    simpl; intros Heq; simplify_eq; simpl.
  all: split; [done|]; split;
    [repeat first [apply sublist_nil_l|apply sublist_skip|apply sublist_cons]
    |intros f Hf Hnone; set_unfold;
     destruct Hf as [->|[->|[->|[]]]]; simplify_eq; eauto 10].
Qed.

End ProfileFacts.

(** * Further properties: calls and handlers *)

Lemma unexpected_keyword_None params items :
  unexpected_keyword params items = None <->
  forall k, k ∈ items.*1 -> k ∈ params.*1.
Proof.
  induction items as [|[k v] items IH]; simpl.
  - split; [intros _ k Hk; by apply elem_of_nil in Hk|done].
  - case_bool_decide as Hk.
    + rewrite IH. split.
      * intros Hall k' [->|Hk']%elem_of_cons; [done|by apply Hall].
      * intros Hall k' Hk'. apply Hall. by right.
    + split; [done|]. intros Hall. exfalso. apply Hk, Hall. by left.
Qed.

Lemma unexpected_keyword_Some params items k :
  unexpected_keyword params items = Some k ->
  k ∈ items.*1 /\ k ∉ params.*1.
Proof.
  induction items as [|[k' v] items IH]; simpl; [done|].
  case_bool_decide as Hk.
  - intros [? ?]%IH. split; [by right|done].
  - intros [= ->]. split; [by left|done].
Qed.

Lemma missing_arguments_spec params items p :
  p ∈ missing_arguments params items <->
  (p, None) ∈ params /\ dict_get items p = None.
Proof.
  induction params as [|[q [d|]] params IH]; simpl.
  - split; [by intros ?%elem_of_nil|by intros [?%elem_of_nil _]].
  - rewrite IH. split.
    + intros [? ?]. split; [by right|done].
    + intros [[?|?]%elem_of_cons ?]; [done|done].
  - destruct (dict_get items q) as [v|] eqn:Hq.
    + rewrite IH. split.
      * intros [? ?]. split; [by right|done].
      * intros [[[= -> ]|?]%elem_of_cons ?]; [congruence|done].
    + rewrite elem_of_cons, IH. split.
      * intros [->|[? ?]]; [split; [by left|done]|split; [by right|done]].
      * intros [[[= ->]|?]%elem_of_cons ?]; [by left|by right].
Qed.

Lemma missing_arguments_nil params items :
  missing_arguments params items = [] <->
  forall p, (p, None) ∈ params -> is_Some (dict_get items p).
Proof.
  split.
  - intros Hnil p Hp. destruct (dict_get items p) eqn:Hget; [done|].
    assert (p ∈ missing_arguments params items)
      by (by apply missing_arguments_spec).
    rewrite Hnil in *. by apply elem_of_nil in H.
  - intros Hall. destruct (missing_arguments params items) as [|p l] eqn:Hm;
      [done|].
    assert (p ∈ missing_arguments params items) as Hp
      by (rewrite Hm; by left).
    apply missing_arguments_spec in Hp as [Hp Hnone].
    apply Hall in Hp as [? ?]. congruence.
Qed.

Lemma required_params_spec f p :
  p ∈ required_params f <-> (p, None) ∈ fn_params f.
Proof.
  unfold required_params. rewrite list_elem_of_omap. split.
  - intros ([q [d|]] & Hq & Heq); simpl in *; [done|]. by simplify_eq.
  - intros Hp. by exists (p, None).
Qed.

(** The binding of keyword arguments succeeds exactly on a dict whose keys
    name parameters and that binds every parameter without a default; it
    then gives every parameter the value of the dict or its default, and
    otherwise raises a [TypeError]. *)
Lemma bind_kwargs_spec f v :
  (returns (bind_kwargs f v) <->
     exists items,
       v = PyDict items
       /\ (forall k, k ∈ items.*1 -> k ∈ (fn_params f).*1)
       /\ (forall p, p ∈ required_params f -> is_Some (dict_get items p)))
  /\ (forall args, bind_kwargs f v = Return args ->
        exists items,
          v = PyDict items /\ args = bound_arguments (fn_params f) items)
  /\ (forall e, bind_kwargs f v = Raise e -> exc_class e = "TypeError").
Proof.
  unfold bind_kwargs, returns.
  destruct v as [| | | | | |items];
    try (split; [split; [by intros [? ?]|by intros (? & ? & _)]|by split;
         [|intros e [= <-]]]).
  destruct (unexpected_keyword (fn_params f) items) as [k|] eqn:Hk.
  - apply unexpected_keyword_Some in Hk as [Hin Hout].
    split; [|by split; [|intros e [= <-]]].
    split; [by intros [? ?]|]. intros (items' & [= <-] & Hkeys & _).
    by apply Hkeys in Hin.
  - pose proof (proj1 (unexpected_keyword_None _ _) Hk) as Hkeys.
    destruct (missing_arguments (fn_params f) items) as [|p l] eqn:Hm.
    + pose proof (proj1 (missing_arguments_nil _ _) Hm) as Hreq.
      split; [|split; [intros args [= <-]; by eexists|done]].
      split; [intros _|by eexists].
      exists items. split; [done|]. split; [done|].
      intros p Hp. by apply Hreq, required_params_spec.
    + split; [|by split; [|intros e [= <-]]].
      split; [by intros [? ?]|]. intros (items' & [= <-] & _ & Hreq).
      assert (missing_arguments (fn_params f) items = []) as Hnil.
      { apply missing_arguments_nil. intros q Hq.
        by apply Hreq, required_params_spec. }
      congruence.
Qed.

Section CallFacts.
Context `{Interpreter}.

Lemma call_kwargs_bound f items :
  (forall k, k ∈ items.*1 -> k ∈ (fn_params f).*1) ->
  (forall p, p ∈ required_params f -> is_Some (dict_get items p)) ->
  call_kwargs f (PyDict items) =
    fn_body f (bound_arguments (fn_params f) items).
Proof.
  intros Hkeys Hreq. unfold call_kwargs.
  destruct (bind_kwargs_spec f (PyDict items)) as (Hret & Hargs & _).
  destruct (proj2 Hret) as [args Heq]; [by exists items|].
  rewrite Heq. destruct (Hargs _ Heq) as (items' & [= <-] & ->). done.
Qed.

Lemma call_kwargs_unbound f v :
  ~ returns (bind_kwargs f v) ->
  exists msg, call_kwargs f v = Raise (TypeError msg).
Proof.
  intros Hno. unfold call_kwargs.
  destruct (bind_kwargs f v) as [args|[cls msg]] eqn:Heq;
    [exfalso; apply Hno; by eexists|].
  destruct (bind_kwargs_spec f v) as (_ & _ & Hcls).
  apply Hcls in Heq. simpl in Heq. subst cls. by exists msg.
Qed.

Lemma advertised_handler t f :
  available_functions !! tool_name t = Some f ->
  fn_name f = tool_name t ->
  (fn_params f).*1 = tool_properties t ->
  required_params f = tool_required t ->
  exists f,
    available_functions !! tool_name t = Some f
    /\ fn_name f = tool_name t
    /\ forall v,
         (returns (bind_kwargs f v) <-> conforms t v)
         /\ (~ conforms t v ->
             exists msg, call_kwargs f v = Raise (TypeError msg)).
Proof.
  intros Hf Hname Hprops Hreq. exists f. split; [done|]. split; [done|].
  intros v.
  assert (returns (bind_kwargs f v) <-> conforms t v) as Hiff.
  { destruct (bind_kwargs_spec f v) as (-> & _).
    unfold conforms. by rewrite Hprops, Hreq. }
  split; [done|]. intros Hno. apply call_kwargs_unbound. by rewrite Hiff.
Qed.

(** X1. The catalog sent to the service and the handler mapping agree: a
    name has a handler exactly when a descriptor of [tools] declares it,
    and for every descriptor the handler of its name binds the arguments
    exactly when they are a dict whose keys are declared properties and
    that has every required property; other arguments are a [TypeError]
    of the call. *)
Theorem advertised_tools_have_handlers :
  (forall n,
     is_Some (available_functions !! n) <-> n ∈ tool_name <$> advertised_tools)
  /\ (forall t, t ∈ advertised_tools ->
        exists f,
          available_functions !! tool_name t = Some f
          /\ fn_name f = tool_name t
          /\ forall v,
               (returns (bind_kwargs f v) <-> conforms t v)
               /\ (~ conforms t v ->
                   exists msg, call_kwargs f v = Raise (TypeError msg))).
Proof.
  split.
  - intros n. split.
    + intros [f Hf]. unfold available_functions in Hf.
      apply elem_of_list_to_map_2 in Hf.
      apply list_elem_of_In. apply list_elem_of_In in Hf. simpl in *.
      destruct Hf as [Hf|[Hf|[Hf|[Hf|[Hf|[]]]]]]; simplify_eq; auto 10.
    + intros Hn. apply list_elem_of_In in Hn. simpl in Hn.
      destruct Hn as [<-|[<-|[<-|[<-|[<-|[]]]]]];
        eexists; vm_compute; reflexivity.
  - intros t Ht. apply list_elem_of_In in Ht. simpl in Ht.
    destruct Ht as [<-|[<-|[<-|[<-|[<-|[]]]]]].
    + by apply (advertised_handler _ def_get_weather).
    + by apply (advertised_handler _ def_calculate).
    + by apply (advertised_handler _ def_get_stock_price).
    + by apply (advertised_handler _ def_send_email).
    + by apply (advertised_handler _ def_search_database).
Qed.

(** X2. A handler called with the unpacked arguments gets every parameter
    from the key of its name, whatever the order of the keys, and the
    default for an optional parameter the dict leaves out: "celsius" for
    the unit, "users" for the table. *)
Theorem keyword_call_uses_defaults (items : list (string * pyvalue)) :
  (forall location,
     (forall k, k ∈ items.*1 -> k ∈ ["location"; "unit"]) ->
     dict_get items "location" = Some location ->
     call_kwargs def_get_weather (PyDict items) =
       get_weather location
         (default (PyStr "celsius") (dict_get items "unit")))
  /\ (forall query,
        (forall k, k ∈ items.*1 -> k ∈ ["query"; "table"]) ->
        dict_get items "query" = Some query ->
        call_kwargs def_search_database (PyDict items) =
          search_database query
            (default (PyStr "users") (dict_get items "table")))
  /\ (forall expression,
        (forall k, k ∈ items.*1 -> k ∈ ["expression"]) ->
        dict_get items "expression" = Some expression ->
        call_kwargs def_calculate (PyDict items) = calculate expression)
  /\ (forall symbol,
        (forall k, k ∈ items.*1 -> k ∈ ["symbol"]) ->
        dict_get items "symbol" = Some symbol ->
        call_kwargs def_get_stock_price (PyDict items) =
          get_stock_price symbol)
  /\ (forall to subject body,
        (forall k, k ∈ items.*1 -> k ∈ ["to"; "subject"; "body"]) ->
        dict_get items "to" = Some to ->
        dict_get items "subject" = Some subject ->
        dict_get items "body" = Some body ->
        call_kwargs def_send_email (PyDict items) =
          send_email to subject body).
Proof.
  repeat split; intros.
  all: rewrite call_kwargs_bound; [| done |].
  all: try (intros p Hp; apply list_elem_of_In in Hp; simpl in Hp;
            repeat (destruct Hp as [<-|Hp]; [by eexists|]); done).
  all: simpl; unfold bound_arguments; simpl.
  all: repeat match goal with Heq : dict_get _ _ = Some _ |- _ =>
                rewrite Heq; clear Heq end.
  all: done.
Qed.

End CallFacts.

Section HandlerFacts.
Context `{Interpreter}.

(** X10. On strings [send_email] returns the success record with the
    recipient and the subject as given; the preview is the body when it
    has at most 50 code points, and its first 50 code points followed by
    three dots otherwise, so never more than 53 code points. *)
Theorem send_email_preview (to subject body : string) :
  exists preview,
    send_email (PyStr to) (PyStr subject) (PyStr body) =
      Return (PyDict [("status"%string, PyStr "success");
                      ("message"%string,
                       PyStr ("Email sent to " ++ to)%string);
                      ("to"%string, PyStr to);
                      ("subject"%string, PyStr subject);
                      ("body_preview"%string, PyStr preview)])
    /\ (str_len preview <= 53)%nat
    /\ str_take 50 preview = str_take 50 body
    /\ ((str_len body <= 50)%nat -> preview = body)
    /\ ((50 < str_len body)%nat ->
        preview = (str_take 50 body ++ "...")%string
        /\ str_len preview = 53%nat).
Proof.
  unfold send_email, py_len, obind, truncated, format_value.
  destruct (Nat.ltb_spec 50 (str_len body)) as [Hlong|Hshort].
  - eexists. split; [done|].
    assert (str_len (str_take 50 body) = 50%nat) as Hlen
      by (rewrite str_take_len; lia).
    assert (str_len "..." = 3%nat) as Hdots by done.
    split; [rewrite str_len_app, Hlen, Hdots by done; lia|].
    split; [rewrite str_take_app by (done || lia); apply str_take_all; lia|].
    split; [lia|]. intros _. split; [done|].
    by rewrite str_len_app, Hlen, Hdots.
  - eexists. split; [done|]. split; [lia|]. split; [done|].
    split; [done|lia].
Qed.

(** X11. [search_database] does not filter: the table, the results and
    the count it returns do not depend on the query; the count is the
    number of results; a table name it does not have gives no result and
    count 0; and it raises only on a table that cannot be hashed. *)
Theorem search_database_reads_table_only :
  (forall query1 query2 table key,
     key <> "query"%string ->
     field key (search_database query1 table) =
       field key (search_database query2 table))
  /\ (forall query table rows,
        field "results" (search_database query table) = Some (PyList rows) ->
        field "count" (search_database query table) =
          Some (PyInt (Z.of_nat (length rows))))
  /\ (forall query table,
        results !! table = None ->
        search_database query (PyStr table) =
          Return (PyDict [("table"%string, PyStr table);
                          ("query"%string, query);
                          ("results"%string, PyList []);
                          ("count"%string, PyInt 0)]))
  /\ (forall query table,
        returns (search_database query table) <->
        (forall l, table <> PyList l) /\ (forall d, table <> PyDict d)).
Proof.
  split; [|split; [|split]].
  - intros query1 query2 table key Hkey. unfold search_database, obind.
    destruct (get_or results table []) as [rows|e]; [|done]. simpl.
    repeat case_decide; try done; congruence.
  - intros query table rows. unfold search_database, obind.
    destruct (get_or results table []) as [rows'|e]; [|done]. simpl.
    by intros [= ->].
  - intros query table Hnone. unfold search_database, obind, get_or.
    by rewrite Hnone.
  - intros query table. unfold search_database, obind, get_or, returns.
    destruct table; simpl; split; try (intros [? ?]; done);
      try (intros _; by eexists); try (intros _; by split);
      try (intros [Hl Hd]; exfalso; first [by eapply Hl|by eapply Hd]).
Qed.

End HandlerFacts.

Section LookupFacts.
Context `{Interpreter}.




(** X13. [get_weather] returns exactly on a location that is a string,
    and [get_stock_price] exactly on a symbol that is a string; on
    another value they raise the [AttributeError] of the missing method
    [lower] or [upper]. *)
Theorem lookup_handlers_need_strings :
  (forall location unit,
     (returns (get_weather location unit) <-> exists s, location = PyStr s)
     /\ ((forall s, location <> PyStr s) ->
         get_weather location unit =
           Raise (Exc "AttributeError"
                    ("'" ++ type_name location
                         ++ "' object has no attribute 'lower'")%string)))
  /\ (forall symbol,
        (returns (get_stock_price symbol) <-> exists s, symbol = PyStr s)
        /\ ((forall s, symbol <> PyStr s) ->
            get_stock_price symbol =
              Raise (Exc "AttributeError"
                       ("'" ++ type_name symbol
                            ++ "' object has no attribute 'upper'")%string))).
Proof.
  split.
  - intros location unit. unfold returns, get_weather.
    destruct location; simpl;
      (split; [split; [try (by intros [? ?]); intros _; by eexists
                      |try (by intros [? ?]); intros _; by eexists]
              |try done; intros Hno; by edestruct Hno]).
  - intros symbol. unfold returns, get_stock_price.
    destruct symbol; simpl;
      (split; [split; [try (by intros [? ?]); intros _; by eexists
                      |try (by intros [? ?]); intros _; by eexists]
              |try done; intros Hno; by edestruct Hno]).
Qed.

End LookupFacts.

(** X14. On an expression that is not a string [calculate] returns an
    error record, whatever [eval] does: [eval] is reached with strings
    only. *)
Theorem calculate_rejects_non_strings (I : Interpreter) (expression : pyvalue) :
  (forall s, expression <> PyStr s) ->
  (exists msg,
     calculate expression = Return (PyDict [("error"%string, PyStr msg)]))
  /\ forall I' : Interpreter,
       @calculate I' expression = @calculate I expression.
Proof.
  intros Hno. unfold calculate, try_except, py_iter, obind, builtin_eval.
  destruct expression as [| | | |s|l|items]; simpl;
    try (split; [by eexists|done]).
  - by destruct (Hno s).
  - destruct (all_allowed l) as [[]|]; simpl; split; by eexists.
  - destruct (all_allowed _) as [[]|]; simpl; split; by eexists.
Qed.

(** * Further properties: the relay and the structured output *)

Section DispatchFacts.
Context `{Interpreter} `{CompletionService}.

Lemma served_invocation tc m :
  tool_result tc = Return m ->
  exists function_args,
    invocation_of tc = [Invoked (call_name tc) function_args]
    /\ call_of tc (call_name tc, function_args).
Proof.
  unfold tool_result, invocation_of, lookup_function, call_of, obind.
  destruct (json_loads (call_arguments tc)) as [function_args|]; [|done].
  destruct (available_functions !! call_name tc) as [f|] eqn:Hf; [|done].
  intros _. exists function_args. simpl. by rewrite Hf.
Qed.

Lemma invocations_of_app events1 events2 :
  invocations_of (events1 ++ events2) =
    invocations_of events1 ++ invocations_of events2.
Proof. apply omap_app. Qed.

Lemma served_invocations tcs :
  Forall (fun tc => returns (tool_result tc)) tcs ->
  Forall2 call_of tcs (invocations_of (invocations_until_failure tcs)).
Proof.
  induction 1 as [|tc tcs [m Hm] _ IH]; simpl; [constructor|].
  rewrite Hm. destruct (served_invocation _ _ Hm) as (args & -> & Hcall).
  simpl. by constructor.
Qed.

Lemma handlers_with_tools user_query history response rm tcs :
  chat_completions_create history (first_request user_query)
    = Return response ->
  first_choice response = Return rm ->
  tool_calls rm = Some tcs ->
  tcs <> [] ->
  handlers_invoked user_query history =
    invocations_of (invocations_until_failure tcs).
Proof.
  intros Hc Hm Htc Hne. unfold handlers_invoked.
  rewrite (new_events_with_tools _ _ _ _ _ Hc Hm Htc Hne).
  unfold invocations_of. simpl. rewrite omap_app.
  destruct (failure_of tcs); simpl; by rewrite app_nil_r.
Qed.

(** X3. When every tool call of the first completion is served, the
    handlers called by the run are those of the tool calls, one for each
    and in their order, each with the arguments read from the payload of
    its call. *)
Theorem handlers_invoked_in_order user_query history response rm tcs :
  chat_completions_create history (first_request user_query)
    = Return response ->
  first_choice response = Return rm ->
  tool_calls rm = Some tcs ->
  tcs <> [] ->
  Forall (fun tc => returns (tool_result tc)) tcs ->
  Forall2 call_of tcs (handlers_invoked user_query history).
Proof.
  intros Hc Hm Htc Hne Hall.
  rewrite (handlers_with_tools _ _ _ _ _ Hc Hm Htc Hne).
  by apply served_invocations.
Qed.

Lemma failing_call_run user_query history response rm served tc rest e :
  chat_completions_create history (first_request user_query)
    = Return response ->
  first_choice response = Return rm ->
  tool_calls rm = Some (served ++ tc :: rest) ->
  Forall (fun tc' => returns (tool_result tc')) served ->
  tool_result tc = Raise e ->
  (run_conversation user_query history).1 = Raise e
  /\ requests_issued user_query history = [first_request user_query]
  /\ handlers_invoked user_query history =
       invocations_of (invocations_until_failure served)
         ++ invocations_of (invocation_of tc)
  /\ exists results,
       messages (run_conversation user_query history).2 =
         initial_messages user_query ++ AssistantMessage rm :: results
       /\ Forall2 answers served results.
Proof.
  intros Hc Hm Htc Hserved Hres.
  assert (Hne : served ++ tc :: rest <> []) by (by destruct served).
  destruct (failing_call_stops_loop served tc rest e Hserved Hres)
    as (Hfail & Hresults & Hlen & Hinv).
  pose proof (run_with_tools _ _ _ _ _ Hc Hm Htc Hne) as Hrun.
  simpl in Hrun. rewrite Hfail, Hresults, Hinv in Hrun.
  split; [by rewrite Hrun|].
  split; [by rewrite (requests_with_tools _ _ _ _ _ Hc Hm Htc Hne), Hfail|].
  split.
  - rewrite (handlers_with_tools _ _ _ _ _ Hc Hm Htc Hne), Hinv.
    apply invocations_of_app.
  - rewrite Hrun. simpl. eexists; split; [done|].
    pose proof (results_of_answers served) as Hans.
    by rewrite Hlen, firstn_all in Hans.
Qed.

(** X4. When the arguments of a tool call cannot be deserialized, the run
    ends with the exception of [json.loads]: the handlers of the calls
    before it have run, the handler of this call and of the later ones
    has not, the results of the calls before it are in [messages], and no
    second request is issued. *)
Theorem malformed_arguments_are_fatal
    user_query history response rm served tc rest e :
  chat_completions_create history (first_request user_query)
    = Return response ->
  first_choice response = Return rm ->
  tool_calls rm = Some (served ++ tc :: rest) ->
  Forall (fun tc' => returns (tool_result tc')) served ->
  json_loads (call_arguments tc) = Raise e ->
  (run_conversation user_query history).1 = Raise e
  /\ requests_issued user_query history = [first_request user_query]
  /\ Forall2 call_of served (handlers_invoked user_query history)
  /\ exists results,
       messages (run_conversation user_query history).2 =
         initial_messages user_query ++ AssistantMessage rm :: results
       /\ Forall2 answers served results.
Proof.
  intros Hc Hm Htc Hserved Hargs.
  assert (Hres : tool_result tc = Raise e)
    by (unfold tool_result, obind; by rewrite Hargs).
  destruct (failing_call_run _ _ _ _ _ _ _ _ Hc Hm Htc Hserved Hres)
    as (Hrun & Hreq & Hinv & Hmsg).
  split; [done|]. split; [done|]. split; [|done].
  rewrite Hinv. unfold invocation_of. rewrite Hargs. simpl.
  rewrite app_nil_r. by apply served_invocations.
Qed.

(** X5. When the result of a handler cannot be serialized, the run ends
    with the exception of [json.dumps] after the handler has run: no
    result is appended for the call, the later calls are not made, and no
    second request is issued. *)
Theorem unserializable_result_is_fatal
    user_query history response rm served tc rest function_args f v e :
  chat_completions_create history (first_request user_query)
    = Return response ->
  first_choice response = Return rm ->
  tool_calls rm = Some (served ++ tc :: rest) ->
  Forall (fun tc' => returns (tool_result tc')) served ->
  json_loads (call_arguments tc) = Return function_args ->
  available_functions !! call_name tc = Some f ->
  call_kwargs f function_args = Return v ->
  json_dumps v = Raise e ->
  (run_conversation user_query history).1 = Raise e
  /\ requests_issued user_query history = [first_request user_query]
  /\ Forall2 call_of (served ++ [tc]) (handlers_invoked user_query history)
  /\ exists results,
       messages (run_conversation user_query history).2 =
         initial_messages user_query ++ AssistantMessage rm :: results
       /\ Forall2 answers served results.
Proof.
  intros Hc Hm Htc Hserved Hargs Hf Hv He.
  assert (Hres : tool_result tc = Raise e).
  { unfold tool_result, lookup_function, obind.
    by rewrite Hargs, Hf, Hv, He. }
  destruct (failing_call_run _ _ _ _ _ _ _ _ Hc Hm Htc Hserved Hres)
    as (Hrun & Hreq & Hinv & Hmsg).
  split; [done|]. split; [done|]. split; [|done].
  rewrite Hinv. apply Forall2_app; [by apply served_invocations|].
  unfold invocation_of, lookup_function. rewrite Hargs, Hf. simpl.
  constructor; [|constructor]. unfold call_of. simpl. by rewrite Hf.
Qed.

(** X6. A failure of the first completion is the failure of the run: the
    exception of the service as it is, or the [IndexError] of a completion
    without choices; the request is not repeated, no handler is called and
    [messages] stays as it was built. *)
Theorem first_request_failure_surfaces user_query history :
  (forall e,
     chat_completions_create history (first_request user_query) = Raise e ->
     run_conversation user_query history =
       (Raise e,
        Conversation (initial_messages user_query)
                     (history ++ [Requested (first_request user_query)])))
  /\ (chat_completions_create history (first_request user_query)
        = Return (Completion []) ->
      (run_conversation user_query history).1
        = Raise (IndexError "list index out of range"))
  /\ (raises (response <-
                chat_completions_create history (first_request user_query) ;;
              first_choice response)%py ->
      raises (run_conversation user_query history).1
      /\ requests_issued user_query history = [first_request user_query]
      /\ handlers_invoked user_query history = []
      /\ messages (run_conversation user_query history).2
           = initial_messages user_query).
Proof.
  split; [|split].
  - intros e He. apply run_first_fails. by rewrite He.
  - intros He. erewrite run_first_fails; [done|]. by rewrite He.
  - intros [e He]. unfold requests_issued, handlers_invoked.
    rewrite (new_events_first_fails _ _ _ He).
    rewrite (run_first_fails _ _ _ He). split; [by eexists|done].
Qed.

(** X7. A failure of the second completion is the failure of the run,
    after every handler has been called and every result appended: the
    two requests are the only ones, the second is not repeated. *)
Theorem second_request_failure_surfaces
    user_query history response rm tcs e :
  chat_completions_create history (first_request user_query)
    = Return response ->
  first_choice response = Return rm ->
  tool_calls rm = Some tcs ->
  tcs <> [] ->
  Forall (fun tc => returns (tool_result tc)) tcs ->
  (second_response <-
     chat_completions_create
       (history ++ Requested (first_request user_query)
          :: invocations_until_failure tcs)
       (second_request user_query rm tcs) ;;
   first_choice second_response)%py = Raise e ->
  (run_conversation user_query history).1 = Raise e
  /\ requests_issued user_query history =
       [first_request user_query; second_request user_query rm tcs]
  /\ Forall2 call_of tcs (handlers_invoked user_query history)
  /\ exists results,
       messages (run_conversation user_query history).2 =
         initial_messages user_query ++ AssistantMessage rm :: results
       /\ Forall2 answers tcs results.
Proof.
  intros Hc Hm Htc Hne Hall He.
  pose proof (proj2 (failure_of_None tcs) Hall) as Hf.
  pose proof (run_with_tools _ _ _ _ _ Hc Hm Htc Hne) as Hrun.
  simpl in Hrun. rewrite Hf in Hrun.
  assert ((run_conversation user_query history).1 = Raise e) as Hraise.
  { rewrite Hrun. cbn [fst]. unfold obind in *.
    destruct (chat_completions_create _ (second_request user_query rm tcs))
      as [second|e']; simpl in *; [by rewrite He|by injection He as ->]. }
  split; [done|].
  split; [by rewrite (requests_with_tools _ _ _ _ _ Hc Hm Htc Hne), Hf|].
  split; [rewrite (handlers_with_tools _ _ _ _ _ Hc Hm Htc Hne);
          by apply served_invocations|].
  rewrite Hrun. simpl. eexists; split; [done|].
  pose proof (results_of_answers tcs) as Hans.
  by rewrite (results_of_length _ Hf), firstn_all in Hans.
Qed.

End DispatchFacts.

Lemma dict_get_set_eq items key v :
  dict_get (dict_set items key v) key = Some v.
Proof.
  induction items as [|[k x] items IH]; simpl.
  - by rewrite decide_True.
  - destruct (decide (k = key)) as [->|Hk]; simpl;
      [by rewrite decide_True|by rewrite decide_False].
Qed.

Lemma dict_get_set_ne items key key' v :
  key <> key' -> dict_get (dict_set items key v) key' = dict_get items key'.
Proof.
  intros Hne. induction items as [|[k x] items IH]; simpl.
  - by rewrite decide_False.
  - destruct (decide (k = key)) as [->|Hk]; simpl.
    + by rewrite !decide_False.
    + by rewrite IH.
Qed.

Lemma dict_set_keys items key v :
  (dict_set items key v).*1 =
    if bool_decide (key ∈ items.*1) then items.*1 else items.*1 ++ [key].
Proof.
  induction items as [|[k x] items IH]; [done|]. cbn [dict_set].
  destruct (decide (k = key)) as [->|Hk]; rewrite !fmap_cons; cbn [fst].
  - by rewrite bool_decide_true by left.
  - rewrite IH. case_bool_decide as Hin.
    + by rewrite bool_decide_true by (by right).
    + rewrite bool_decide_false; [done|].
      intros [?|?]%elem_of_cons; [congruence|done].
Qed.

Section StructuredTheorems.
Context `{Interpreter} `{StructuredService} `{Pydantic}.

(** X19. [get_structured_output_with_pydantic] issues exactly one request,
    whatever comes back, with the system message and the prompt; the
    schema it sends is the schema of the model class with
    [additionalProperties] set to false: the other keys keep their
    values and their order, and the key is added at the end when the
    class schema does not have it. *)
Theorem structured_request_is_strict {A} (mc : model_class A)
    prompt system_message log :
  exists r,
    (get_structured_output_with_pydantic mc prompt system_message log).2
      = log ++ [r]
    /\ sr_messages r =
         [RoleContent "system" system_message; RoleContent "user" prompt]
    /\ dict_get (schema_of (sr_response_format r)) "additionalProperties"
         = Some (PyBool false)
    /\ (forall key, key <> "additionalProperties"%string ->
          dict_get (schema_of (sr_response_format r)) key
            = dict_get (cls_json_schema mc) key)
    /\ (schema_of (sr_response_format r)).*1 =
         if bool_decide ("additionalProperties"%string
                           ∈ (cls_json_schema mc).*1)
         then (cls_json_schema mc).*1
         else (cls_json_schema mc).*1 ++ ["additionalProperties"%string].
Proof.
  eexists. split; [done|]. simpl. split; [done|].
  split; [apply dict_get_set_eq|].
  split; [intros key Hkey; by apply dict_get_set_ne|apply dict_set_keys].
Qed.

(** X20. What [get_structured_output_with_pydantic] returns for
    [PersonProfile] has been validated: it is the profile [model_validate]
    gives for the JSON text of the first choice of the completion, so its
    age is between 0 and 150 and its name is stripped and not empty. *)
Theorem structured_output_is_validated schema prompt system_message log p :
  (get_structured_output_with_pydantic (PersonProfile_class schema)
     prompt system_message log).1 = Return p ->
  (0 <= age p <= 150)%Z
  /\ name p <> ""%string
  /\ str_strip (name p) = name p
  /\ exists r completion response_message text json_response,
       (get_structured_output_with_pydantic (PersonProfile_class schema)
          prompt system_message log).2 = log ++ [r]
       /\ structured_create log r = Return completion
       /\ first_choice completion = Return response_message
       /\ content response_message = Some text
       /\ json_loads text = Return json_response
       /\ model_validate json_response = Return p.
Proof.
  unfold get_structured_output_with_pydantic. simpl. unfold obind.
  destruct (structured_create log _) as [completion|] eqn:Hc; [|done].
  destruct (first_choice completion) as [m|] eqn:Hm; [|done].
  destruct (content m) as [text|] eqn:Ht; [|done]. simpl.
  destruct (json_loads text) as [v|] eqn:Hv; [|done].
  intros Hp.
  destruct (model_validate_fields _ _ Hp)
    as (Hage & items & n & o & _ & _ & Hname & Hne & _).
  split; [done|]. split; [by rewrite Hname|].
  split; [by rewrite Hname, str_strip_idempotent|].
  by eexists _, completion, m, text, v.
Qed.

End StructuredTheorems.

(** * The theorems on the scripted runs *)

(** C1 on a query answered with two tool calls: both results are in the
    second request, in the order of the calls. *)
Lemma tool_results_precede_second_request_witness :
  (forall r2,
     @requests_issued sample_interpreter sample_service two_tools_query []
       !! 1%nat = Some r2 ->
     exists results,
       req_messages r2 =
         initial_messages two_tools_query
           ++ AssistantMessage two_tools_message :: results
       /\ length results = length two_tools_calls
       /\ Forall2 answers two_tools_calls results
       /\ Forall2 (fun tc m => @tool_result sample_interpreter tc = Return m)
                  two_tools_calls results
       /\ exists calls,
            @new_events sample_interpreter sample_service two_tools_query []
              = Requested (first_request two_tools_query)
                  :: calls ++ [Requested r2]
            /\ requests_of calls = [])
  /\ (Forall (fun tc => returns (@tool_result sample_interpreter tc))
             two_tools_calls ->
      is_Some (@requests_issued sample_interpreter sample_service
                 two_tools_query [] !! 1%nat)).
Proof.
  apply (@tool_results_precede_second_request
           sample_interpreter sample_service two_tools_query []
           (Completion [two_tools_message]) two_tools_message
           two_tools_calls);
    [vm_compute; reflexivity|reflexivity|reflexivity|discriminate].
Defined.

(** C2 on a query answered in text. *)
Lemma no_tool_call_returns_first_content_witness :
  (@run_conversation sample_interpreter sample_service greeting_query []).1
    = Return (Some "Hello! How can I help you today?"%string)
  /\ @requests_issued sample_interpreter sample_service greeting_query []
       = [first_request greeting_query]
  /\ @handlers_invoked sample_interpreter sample_service greeting_query []
       = [].
Proof.
  apply (@no_tool_call_returns_first_content
           sample_interpreter sample_service greeting_query []
           (Completion [greeting_message]) greeting_message);
    [vm_compute; reflexivity|reflexivity|reflexivity].
Defined.

(** C3 on a query answered with a call of [translate], which the mapping
    does not have. *)
Lemma unknown_tool_is_fatal_witness :
  raises (@run_conversation sample_interpreter sample_service
            translate_query []).1
  /\ @requests_issued sample_interpreter sample_service translate_query []
       = [first_request translate_query].
Proof.
  apply (@unknown_tool_is_fatal
           sample_interpreter sample_service translate_query []
           (Completion [translate_message]) translate_message
           translate_calls);
    [vm_compute; reflexivity|reflexivity|reflexivity|].
  apply Exists_cons_tl, Exists_cons_hd. vm_compute. reflexivity.
Defined.

(** The weather scenario: the handler reports "Rainy" for Tokyo, and the
    second request carries that record. *)
Example weather_in_tokyo :
  field "condition"
    (@get_weather sample_interpreter (PyStr "Tokyo") (PyStr "celsius"))
    = Some (PyStr "Rainy")
  /\ (@run_conversation sample_interpreter sample_service weather_query []).1
       = Return (Some "Here is what I found."%string)
  /\ (forall r2,
        @requests_issued sample_interpreter sample_service weather_query []
          !! 1%nat = Some r2 ->
        last (req_messages r2) =
          Some (ToolResult "call_1" "get_weather"
                  (sample_dumps
                     (PyDict [("location"%string, PyStr "Tokyo");
                              ("temperature"%string, PyInt 18);
                              ("unit"%string, PyStr "celsius");
                              ("condition"%string, PyStr "Rainy");
                              ("humidity"%string, PyInt 80)])))).
Proof.
  split; [reflexivity|]. split; [by vm_compute|].
  intros r2. vm_compute. by intros [= <-].
Qed.

(** The run that meets the unknown tool ends with the [KeyError] of its
    name, after the handler of the call before it has run. *)
Example translate_raises_key_error :
  (@run_conversation sample_interpreter sample_service translate_query []).1
    = Raise (Exc "KeyError" "'translate'")
  /\ @handlers_invoked sample_interpreter sample_service translate_query []
       = [("get_weather"%string, tokyo_args)].
Proof. by vm_compute. Qed.

(** C4 on a service whose second completion asks for a tool again: the run
    ends there, with two requests and one handler call. *)
Example insistent_service_two_requests :
  (@run_conversation sample_interpreter insistent_service greeting_query []).1
    = Return None
  /\ length (@requests_issued sample_interpreter insistent_service
               greeting_query []) = 2%nat
  /\ @handlers_invoked sample_interpreter insistent_service greeting_query []
       = [("get_weather"%string, tokyo_args)].
Proof. vm_compute. done. Qed.

(** C5 as the code has it, on a query whose second tool call passes a
    number for the location: the first call is served, the second raises,
    and the run ends with its exception. *)
Lemma handler_exception_propagates_witness :
  (@run_conversation sample_interpreter sample_service number_query []).1
    = Raise no_attribute_lower
  /\ @requests_issued sample_interpreter sample_service number_query []
       = [first_request number_query]
  /\ (exists earlier,
        @handlers_invoked sample_interpreter sample_service number_query []
          = earlier ++ [("get_weather"%string, number_args)])
  /\ exists results,
       messages (@run_conversation sample_interpreter sample_service
                   number_query []).2
         = initial_messages number_query
             ++ AssistantMessage number_message :: results
       /\ Forall2 answers
            [ToolCall "call_1" "get_weather" (sample_dumps tokyo_args)]
            results.
Proof.
  apply (@handler_exception_propagates
           sample_interpreter sample_service number_query []
           (Completion [number_message]) number_message
           [ToolCall "call_1" "get_weather" (sample_dumps tokyo_args)]
           (ToolCall "call_2" "get_weather" (sample_dumps number_args))
           [ToolCall "call_3" "calculate" (sample_dumps product_args)]
           number_args (@def_get_weather sample_interpreter)
           no_attribute_lower);
    [vm_compute; reflexivity|reflexivity|reflexivity| |
     vm_compute; reflexivity|vm_compute; reflexivity|vm_compute; reflexivity].
  constructor; [|constructor]. eexists. vm_compute. reflexivity.
Defined.

(** C5 as the specification has it fails on [calculate]: the evaluation of
    "1/0" raises inside the handler, the handler catches it, and the run
    does not fail but hands the error record to the model as a tool result
    in its second request and returns the answer. *)
Lemma calculate_failure_is_reported :
  @py_eval sample_interpreter "1/0"
    = Raise (Exc "ZeroDivisionError" "division by zero")
  /\ (@run_conversation sample_interpreter sample_service division_query []).1
       = Return (Some "Here is what I found."%string)
  /\ @requests_issued sample_interpreter sample_service division_query []
       = [first_request division_query;
          Request "gpt-4o"
            (initial_messages division_query
               ++ [AssistantMessage division_message;
                   ToolResult "call_1" "calculate"
                     (sample_dumps
                        (PyDict [("error"%string,
                                  PyStr "division by zero")]))])
            None None].
Proof. vm_compute. done. Qed.

(** C7 on the dict of [example_with_validation_error]. *)
Lemma age_200_fails_validation_witness :
  (exists errors,
     @validate_fields sample_pydantic invalid_data = inl errors
     /\ ("age"%string, less_than_equal 150) ∈ errors
     /\ @model_validate sample_pydantic invalid_data
          = Raise (@ValidationError sample_pydantic errors))
  /\ (forall st,
        @example_with_validation_error sample_pydantic st =
          (Return tt,
           Conversation (messages st)
                        (trace st ++ @example_output sample_pydantic))
        /\ requests_of
             (trace (@example_with_validation_error sample_pydantic st).2)
           = requests_of (trace st)).
Proof.
  apply (@age_200_fails_validation sample_pydantic
           [("name"%string, PyStr "   "); ("age"%string, PyInt 200);
            ("occupation"%string, PyStr "Developer")]).
  reflexivity.
Defined.

(** C8 on the run of the query answered with two tool calls: the two
    messages the query starts with are the first two at its end. *)
Lemma messages_only_appended_witness :
  messages (@run_conversation sample_interpreter sample_service
              two_tools_query []).2 !! 1%nat
    = Some (RoleContent "user" two_tools_query).
Proof.
  destruct (@messages_only_appended sample_interpreter sample_service)
    as (_ & _ & _ & _ & _ & Hkeep & _).
  apply (Hkeep (Conversation (initial_messages two_tools_query) [])).
  reflexivity.
Defined.

(** C9 on an expression with a letter and on a division by zero. *)
Lemma calculate_never_raises_witness :
  @calculate sample_interpreter (PyStr "2 + x")
    = Return (PyDict [("error"%string,
                       PyStr "Invalid characters in expression")])
  /\ @calculate sample_interpreter (PyStr "1/0")
       = Return (PyDict [("error"%string, PyStr "division by zero")]).
Proof.
  split.
  - destruct (calculate_never_raises sample_interpreter "2 + x")
      as (_ & Hbad & _).
    apply Hbad. exists "x"%string.
    split; apply (bool_decide_unpack _); vm_compute; exact I.
  - destruct (calculate_never_raises sample_interpreter "1/0")
      as (_ & _ & Hok).
    destruct Hok as [Hraise _].
    + apply (bool_decide_unpack _). vm_compute. exact I.
    + apply (Hraise (Exc "ZeroDivisionError" "division by zero")).
      reflexivity.
Defined.

(** C10 as the code has it, on a city and a symbol in another case and on
    a city and a symbol the tables do not have. *)
Lemma lookup_handlers_case_insensitive_witness :
  field "condition"
    (@get_weather sample_interpreter (PyStr "TOKYO") (PyStr "celsius"))
    = field "condition"
        (@get_weather sample_interpreter (PyStr "tokyo") (PyStr "fahrenheit"))
  /\ @get_weather sample_interpreter (PyStr "Atlantis") (PyStr "celsius")
       = Return (PyDict [("location"%string, PyStr "Atlantis");
                         ("temperature"%string, PyInt 20);
                         ("unit"%string, PyStr "celsius");
                         ("condition"%string, PyStr "Unknown");
                         ("humidity"%string, PyInt 50)])
  /\ @get_stock_price sample_interpreter (PyStr "msft")
       = @get_stock_price sample_interpreter (PyStr "MSFT")
  /\ @get_stock_price sample_interpreter (PyStr "zzz")
       = Return (PyDict [("symbol"%string, PyStr "ZZZ");
                         ("price"%string, PyInt 0);
                         ("change"%string, PyInt 0);
                         ("change_percent"%string, PyInt 0)]).
Proof.
  destruct (lookup_handlers_case_insensitive sample_interpreter)
    as (_ & Hlower & _ & Hunknown & _ & Hupper & Hzero).
  split; [|split; [|split]].
  - apply Hlower; [reflexivity|].
    apply (bool_decide_unpack _). vm_compute. exact I.
  - apply Hunknown. vm_compute. reflexivity.
  - apply Hupper. reflexivity.
  - apply (Hzero "zzz"%string). vm_compute. reflexivity.
Defined.

(** C10 as the specification has it fails on [get_weather]: "Tokyo" and
    "tokyo" have the same lower case and different records, since the
    record carries the location as it was given. *)
Lemma get_weather_echoes_location :
  @str_lower sample_interpreter "Tokyo" = @str_lower sample_interpreter "tokyo"
  /\ @get_weather sample_interpreter (PyStr "Tokyo") (PyStr "celsius")
       <> @get_weather sample_interpreter (PyStr "tokyo") (PyStr "celsius")
  /\ field "location"
       (@get_weather sample_interpreter (PyStr "Tokyo") (PyStr "celsius"))
       = Some (PyStr "Tokyo")
  /\ field "location"
       (@get_weather sample_interpreter (PyStr "tokyo") (PyStr "celsius"))
       = Some (PyStr "tokyo").
Proof.
  split; [reflexivity|]. split; [|split; reflexivity].
  intros Heq. apply (f_equal (field "location")) in Heq.
  vm_compute in Heq. discriminate Heq.
Qed.


(** * The further properties on the scripted runs *)

(** X1 on the descriptor of [get_weather]: arguments with the location
    only conform to it and are bound. *)
Lemma advertised_tools_have_handlers_witness :
  is_Some (@available_functions sample_interpreter !! "get_weather"%string)
  /\ exists f,
       @available_functions sample_interpreter !! "get_weather"%string
         = Some f
       /\ returns (bind_kwargs f tokyo_args).
Proof.
  destruct (@advertised_tools_have_handlers sample_interpreter)
    as [Hnames Htools].
  split; [apply Hnames; apply list_elem_of_In; simpl; auto|].
  destruct (Htools (function_tool "get_weather"
                      "Get the current weather for a specific location"
                      [("location"%string,
                        string_property
                          "The city name, e.g., London, New York");
                       ("unit"%string,
                        enum_property ["celsius"%string; "fahrenheit"%string]
                          "The temperature unit")]
                      ["location"%string]))
    as (f & Hf & _ & Hbind); [apply list_elem_of_In; simpl; auto|].
  exists f. split; [exact Hf|]. apply Hbind.
  exists [("location"%string, PyStr "Tokyo")]. split; [reflexivity|].
  split.
  - intros k Hk. apply list_elem_of_In in Hk. simpl in Hk.
    destruct Hk as [<-|[]]. apply list_elem_of_In. simpl. auto.
  - intros r Hr. apply list_elem_of_In in Hr. simpl in Hr.
    destruct Hr as [<-|[]]. eexists. reflexivity.
Defined.

(** X2 on arguments that give the unit before the location, and on
    arguments that leave the table out. *)
Lemma keyword_call_uses_defaults_witness :
  call_kwargs (@def_get_weather sample_interpreter)
    (PyDict [("unit"%string, PyStr "fahrenheit");
             ("location"%string, PyStr "Paris")])
    = @get_weather sample_interpreter (PyStr "Paris") (PyStr "fahrenheit")
  /\ call_kwargs def_search_database
       (PyDict [("query"%string, PyStr "all users")])
       = search_database (PyStr "all users") (PyStr "users").
Proof.
  split.
  - destruct (@keyword_call_uses_defaults sample_interpreter
                [("unit"%string, PyStr "fahrenheit");
                 ("location"%string, PyStr "Paris")]) as (Hweather & _).
    apply (Hweather (PyStr "Paris")); [|reflexivity].
    intros k Hk. apply list_elem_of_In in Hk. apply list_elem_of_In.
    simpl in *. tauto.
  - destruct (@keyword_call_uses_defaults sample_interpreter
                [("query"%string, PyStr "all users")])
      as (_ & Hsearch & _).
    apply (Hsearch (PyStr "all users")); [|reflexivity].
    intros k Hk. apply list_elem_of_In in Hk. apply list_elem_of_In.
    simpl in *. tauto.
Defined.

(** X3 on the query answered with two tool calls. *)
Lemma handlers_invoked_in_order_witness :
  Forall2 (@call_of sample_interpreter) two_tools_calls
    (@handlers_invoked sample_interpreter sample_service two_tools_query []).
Proof.
  apply (@handlers_invoked_in_order sample_interpreter sample_service
           two_tools_query [] (Completion [two_tools_message])
           two_tools_message two_tools_calls);
    [vm_compute; reflexivity|reflexivity|reflexivity|discriminate|].
  repeat constructor; eexists; vm_compute; reflexivity.
Defined.

Definition malformed_message : chat_message :=
  ChatMessage None (Some [tokyo_call; broken_call; london_call]).

(** X4 on a run whose second tool call has a payload that is not JSON. *)
Lemma malformed_arguments_are_fatal_witness :
  (@run_conversation sample_interpreter faulty_service malformed_query []).1
    = Raise json_decode_error
  /\ @requests_issued sample_interpreter faulty_service malformed_query []
       = [first_request malformed_query]
  /\ Forall2 (@call_of sample_interpreter) [tokyo_call]
       (@handlers_invoked sample_interpreter faulty_service
          malformed_query [])
  /\ exists results,
       messages (@run_conversation sample_interpreter faulty_service
                   malformed_query []).2
         = initial_messages malformed_query
             ++ AssistantMessage malformed_message :: results
       /\ Forall2 answers [tokyo_call] results.
Proof.
  apply (@malformed_arguments_are_fatal sample_interpreter faulty_service
           malformed_query [] (Completion [malformed_message])
           malformed_message [tokyo_call] broken_call [london_call]
           json_decode_error);
    [vm_compute; reflexivity|reflexivity|reflexivity|
     |vm_compute; reflexivity].
  constructor; [|constructor]. eexists. vm_compute. reflexivity.
Defined.

Definition power_message : chat_message :=
  ChatMessage None (Some [tokyo_call; power_call; london_call]).

Definition digit_limit_error : exn :=
  Exc "ValueError"
    "Exceeds the limit (4300 digits) for integer string conversion; use sys.set_int_max_str_digits() to increase the limit".

Lemma long_power (bits m n : Z) :
  (0 <= m <= n)%Z -> (bits <= 3 * n)%Z ->
  (bits <=? Z.log2 (Z.abs (10 ^ n)))%Z && (10 ^ m <=? Z.abs (10 ^ n))%Z
    = true.
Proof.
  intros Hm Hbits.
  assert (0 < 10 ^ n)%Z as Hpos by (apply Z.pow_pos_nonneg; lia).
  rewrite Z.abs_eq by lia.
  apply andb_true_intro. split; apply Z.leb_le.
  - transitivity (3 * n)%Z; [done|].
    apply Z.log2_le_pow2; [done|].
    rewrite Z.pow_mul_r by lia. apply Z.pow_le_mono_l. lia.
  - apply Z.pow_le_mono_r; lia.
Qed.

Lemma power_is_long (n : Z) :
  (4762 <= n)%Z -> has_long_int (PyInt (10 ^ n)) = true.
Proof. intros Hn. apply (long_power 14284 4300 n); lia. Qed.

Lemma long_int_is_long : has_long_int (PyInt long_int) = true.
Proof. apply (power_is_long 5000). lia. Qed.

Lemma long_result_refused (expression : string) (z : Z) :
  has_long_int (PyInt z) = true ->
  @json_dumps limit_interpreter
    (PyDict [("expression"%string, PyStr expression);
             ("result"%string, PyInt z)])
    = Raise digit_limit_error.
Proof.
  intros Hz. cbn [json_dumps limit_interpreter].
  assert (has_long_int
            (PyDict [("expression"%string, PyStr expression);
                     ("result"%string, PyInt z)]) = true) as ->; [|done].
  cbn [has_long_int existsb snd orb] in *. by rewrite Hz.
Qed.

Lemma long_int_refused :
  @json_dumps limit_interpreter
    (PyDict [("expression"%string, PyStr "10**5000");
             ("result"%string, PyInt long_int)])
    = Raise digit_limit_error.
Proof. apply long_result_refused, long_int_is_long. Qed.

(** X5 on a run whose second tool call computes a power with 5001
    digits, which [json.dumps] refuses. *)
Lemma unserializable_result_is_fatal_witness :
  (@run_conversation limit_interpreter faulty_service power_query []).1
    = Raise digit_limit_error
  /\ @requests_issued limit_interpreter faulty_service power_query []
       = [first_request power_query]
  /\ Forall2 (@call_of limit_interpreter) ([tokyo_call] ++ [power_call])
       (@handlers_invoked limit_interpreter faulty_service power_query [])
  /\ exists results,
       messages (@run_conversation limit_interpreter faulty_service
                   power_query []).2
         = initial_messages power_query
             ++ AssistantMessage power_message :: results
       /\ Forall2 answers [tokyo_call] results.
Proof.
  apply (@unserializable_result_is_fatal limit_interpreter faulty_service
           power_query [] (Completion [power_message]) power_message
           [tokyo_call] power_call [london_call] power_args
           (@def_calculate limit_interpreter)
           (PyDict [("expression"%string, PyStr "10**5000");
                    ("result"%string, PyInt long_int)])
           digit_limit_error);
    [reflexivity|reflexivity|reflexivity|
     |reflexivity|reflexivity|reflexivity|exact long_int_refused].
  constructor; [|constructor]. eexists. reflexivity.
Defined.

(** X6 on the service that cannot be reached. *)
Lemma first_request_failure_surfaces_witness :
  @run_conversation sample_interpreter unreachable_service weather_query []
    = (Raise connection_error,
       Conversation (initial_messages weather_query)
                    ([] ++ [Requested (first_request weather_query)])).
Proof.
  destruct (@first_request_failure_surfaces sample_interpreter
              unreachable_service weather_query []) as (Hfail & _).
  apply Hfail. reflexivity.
Defined.

Definition tokyo_message : chat_message :=
  ChatMessage None (Some [tokyo_call]).

(** X7 on the service that reaches its rate limit at the second
    request. *)
Lemma second_request_failure_surfaces_witness :
  (@run_conversation sample_interpreter faulty_service weather_query []).1
    = Raise rate_limit
  /\ @requests_issued sample_interpreter faulty_service weather_query []
       = [first_request weather_query;
          @second_request sample_interpreter weather_query tokyo_message
            [tokyo_call]]
  /\ Forall2 (@call_of sample_interpreter) [tokyo_call]
       (@handlers_invoked sample_interpreter faulty_service weather_query [])
  /\ exists results,
       messages (@run_conversation sample_interpreter faulty_service
                   weather_query []).2
         = initial_messages weather_query
             ++ AssistantMessage tokyo_message :: results
       /\ Forall2 answers [tokyo_call] results.
Proof.
  apply (@second_request_failure_surfaces sample_interpreter faulty_service
           weather_query [] (Completion [tokyo_message]) tokyo_message
           [tokyo_call] rate_limit);
    [vm_compute; reflexivity|reflexivity|reflexivity|discriminate|
     |vm_compute; reflexivity].
  constructor; [|constructor]. eexists. vm_compute. reflexivity.
Defined.

(** X8 on the service that asks for a tool in every completion. *)
Lemma second_tool_calls_ignored_witness :
  (@run_conversation sample_interpreter insistent_service greeting_query []).1
    = Return None
  /\ @handlers_invoked sample_interpreter insistent_service greeting_query []
       = invocations_of
           (@invocations_until_failure sample_interpreter [tokyo_call]).
Proof.
  apply (@second_tool_calls_ignored sample_interpreter insistent_service
           greeting_query [] (Completion [tokyo_message]) tokyo_message
           [tokyo_call] (Completion [tokyo_message]) tokyo_message);
    [reflexivity|reflexivity|reflexivity|discriminate
    |vm_compute; reflexivity|reflexivity|reflexivity].
Defined.

(** X9 on the run that meets the call of [translate]. *)
Lemma unknown_tool_key_error_witness :
  (@run_conversation sample_interpreter sample_service translate_query []).1
    = Raise (@KeyError sample_interpreter "translate").
Proof.
  apply (@unknown_tool_key_error sample_interpreter sample_service
           translate_query [] (Completion [translate_message])
           translate_message
           [ToolCall "call_1" "get_weather" (sample_dumps tokyo_args)]
           (ToolCall "call_2" "translate" (sample_dumps text_args))
           [] text_args);
    [vm_compute; reflexivity|reflexivity|reflexivity|
     |vm_compute; reflexivity|vm_compute; reflexivity].
  constructor; [|constructor]. eexists. vm_compute. reflexivity.
Defined.


(** The preview of a body of 30 accented letters, 60 characters in UTF-8,
    is the body, and that of a body of 51 of them is its first 50 and
    three dots. *)
Example accented_body_preview :
  let letters (n : nat) := str_join (replicate n (utf8 233)) in
  String.length (letters 30%nat) = 60%nat
  /\ str_len (letters 30%nat) = 30%nat
  /\ field "body_preview"
       (@send_email sample_interpreter (PyStr "ann@example.com")
          (PyStr "Hello") (PyStr (letters 30%nat)))
       = Some (PyStr (letters 30%nat))
  /\ field "body_preview"
       (@send_email sample_interpreter (PyStr "ann@example.com")
          (PyStr "Hello") (PyStr (letters 51%nat)))
       = Some (PyStr (letters 50%nat ++ "...")%string).
Proof. by vm_compute. Qed.

(** X14 on a list of characters. *)
Lemma calculate_rejects_non_strings_witness :
  exists msg,
    @calculate sample_interpreter (PyList [PyStr "1"; PyStr "+"; PyStr "1"])
      = Return (PyDict [("error"%string, PyStr msg)]).
Proof.
  apply (calculate_rejects_non_strings sample_interpreter
           (PyList [PyStr "1"; PyStr "+"; PyStr "1"])).
  intros s. discriminate.
Defined.

(** X15 on the profile of Bob, whose name comes with spaces around. *)
Lemma validated_profile_is_valid_witness :
  (0 <= age bob <= 150)%Z
  /\ name bob <> ""%string
  /\ str_strip (name bob) = name bob
  /\ exists items n o,
       PyDict bob_items = PyDict items
       /\ dict_get items "name" = Some (PyStr n) /\ name bob = str_strip n
       /\ dict_get items "occupation" = Some (PyStr o)
       /\ occupation bob = o.
Proof.
  apply (@validated_profile_is_valid sample_pydantic (PyDict bob_items) bob).
  reflexivity.
Defined.

(** X16 on the profile of Bob. *)
Lemma validation_round_trip_witness :
  @model_validate sample_pydantic (profile_dict bob) = Return bob.
Proof.
  apply (@validation_round_trip sample_pydantic (PyDict bob_items) bob).
  reflexivity.
Defined.

(** X17 on the profile of Bob. *)
Lemma well_typed_profile_accepted_iff_witness :
  @model_validate sample_pydantic (PyDict bob_items) = Return bob.
Proof.
  destruct (@well_typed_profile_accepted_iff sample_pydantic bob_items
              "  Bob Stone " 34 "Software Engineer"
              eq_refl eq_refl eq_refl) as (Hiff & Hreturn & _).
  apply Hreturn, Hiff. split; [lia|].
  apply Exists_cons_tl, Exists_cons_tl, Exists_cons_hd. reflexivity.
Defined.

(** A name with no-break spaces around it is stored without them, and a
    name of one no-break space is refused as empty. *)
Example no_break_space_is_stripped :
  @model_validate sample_pydantic
    (PyDict [("name"%string, PyStr (utf8 160 ++ "Bob Stone" ++ utf8 160));
             ("age"%string, PyInt 34);
             ("occupation"%string, PyStr "Software Engineer")])
    = Return bob
  /\ @validate_fields sample_pydantic
       (PyDict [("name"%string, PyStr (utf8 160));
                ("age"%string, PyInt 34);
                ("occupation"%string, PyStr "Software Engineer")])
       = inl [("name"%string, value_error "Name cannot be empty")].
Proof. by vm_compute. Qed.

(** X18 on a dict that has an age of 200 and nothing else. *)
Lemma validation_errors_by_field_witness :
  [("name"%string, missing); ("age"%string, less_than_equal 150);
   ("occupation"%string, missing)] <> []
  /\ [("name"%string, missing); ("age"%string, less_than_equal 150);
      ("occupation"%string, missing)].*1
       `sublist_of` ["name"%string; "age"%string; "occupation"%string]
  /\ (forall f,
        f ∈ ["name"%string; "age"%string; "occupation"%string] ->
        dict_get [("age"%string, PyInt 200)] f = None ->
        (f, missing) ∈ [("name"%string, missing);
                        ("age"%string, less_than_equal 150);
                        ("occupation"%string, missing)]).
Proof.
  apply (@validation_errors_by_field sample_pydantic
           [("age"%string, PyInt 200)]).
  reflexivity.
Defined.

(** X19 on the class of the profile: the schema sent has the keys of the
    class schema and [additionalProperties] after them. *)
Example profile_request_schema :
  exists r,
    (@get_structured_output_with_pydantic profile_interpreter profile_service
       _ (@PersonProfile_class sample_pydantic profile_schema)
       "Generate a profile for a software engineer named Bob."
       "You are a helpful assistant that generates fictional person profiles."
       []).2 = [r]
    /\ (schema_of (sr_response_format r)).*1 =
         ["description"%string; "properties"%string; "required"%string;
          "title"%string; "type"%string; "additionalProperties"%string].
Proof. eexists. split; reflexivity. Qed.

(** X20 on the service that answers with the profile of Bob. *)
Lemma structured_output_is_validated_witness :
  (0 <= age bob <= 150)%Z
  /\ name bob <> ""%string
  /\ str_strip (name bob) = name bob
  /\ exists r completion response_message text json_response,
       (@get_structured_output_with_pydantic profile_interpreter
          profile_service _
          (@PersonProfile_class sample_pydantic profile_schema)
          "Generate a profile for a software engineer named Bob."
          "You are a helpful assistant that generates fictional person profiles."
          []).2 = [] ++ [r]
       /\ @structured_create profile_service [] r = Return completion
       /\ first_choice completion = Return response_message
       /\ content response_message = Some text
       /\ @json_loads profile_interpreter text = Return json_response
       /\ @model_validate sample_pydantic json_response = Return bob.
Proof.
  apply (@structured_output_is_validated profile_interpreter profile_service
           sample_pydantic profile_schema
           "Generate a profile for a software engineer named Bob."
           "You are a helpful assistant that generates fictional person profiles."
           [] bob).
  vm_compute. reflexivity.
Defined.
